(** * Navigator: mode-switching state machine and trajectory tracking

    A shallow embedding of [autonomy_repo/scripts/navigator.py].

    Conventions of the embedding.
    - Python floats are read as real numbers ([R]); [np.cos], [np.sin],
      [max] and [np.linalg.norm] are the real functions [cos], [sin],
      [Rmax] and the Euclidean norm.
    - The fields of the node ([self.mode], [self.plan], ...) form the
      record [Nav]; a method is a computation in the monad [M], which
      threads the node, may raise a Python exception and records what the
      method logs, publishes or asks of a collaborator in a trace of
      [Event]s.
    - What the file imports from other packages (the A* search, scipy's
      splines, the occupancy grid, the gains and thresholds set elsewhere)
      is gathered in the class [Collaborators]. *)

From Stdlib Require Import Reals Lra Lia ZArith List Bool RelationClasses.
Import ListNotations.
Open Scope R_scope.

(** ** Angles *)

(** The least integer not below [r]. *)
Definition ceilZ (r : R) : Z := (1 - up (- r))%Z.

(** Modelled from the spec: [wrap_angle] of [asl_tb3_lib.math_utils] is
    imported by the navigator and its source is not part of this
    repository.  The specification says the heading error is "normalized to
    (−π, π]": the representative of [a] modulo a full turn that lies in
    that interval. *)
Definition wrap_angle (a : R) : R :=
  a - 2 * PI * IZR (ceilZ ((a - PI) / (2 * PI))).

(** [np.arctan2] on real arguments. *)
Definition arctan2 (y x : R) : R :=
  if Rlt_dec 0 x then atan (y / x)
  else if Rlt_dec x 0 then
         if Rle_dec 0 y then atan (y / x) + PI else atan (y / x) - PI
       else if Rlt_dec 0 y then PI / 2
            else if Rlt_dec y 0 then - (PI / 2) else 0.

(** ** Messages *)

(** [asl_tb3_msgs.msg.TurtleBotState]. *)
Record TurtleBotState : Type := mkState { x : R; y : R; theta : R }.

(** [asl_tb3_msgs.msg.TurtleBotControl]: a linear speed and an angular
    rate.  [TurtleBotControl()] is the zero command. *)
Record TurtleBotControl : Type := mkControl { v : R; omega : R }.

Definition TurtleBotControl_default : TurtleBotControl := mkControl 0 0.

Definition point : Type := (R * R)%type.

(** ** Navigation mode *)

Inductive NavMode : Type := IDLE | ALIGN | TRACK | PARK.

Definition NavMode_eq_dec (a b : NavMode) : {a = b} + {a <> b}.
Proof. decide equality. Defined.

(** ** numpy helpers used by the planner *)

(** [np.diff(path, axis=0)]: differences of consecutive rows. *)
Fixpoint diff (path : list point) : list point :=
  match path with
  | p :: (q :: _) as rest => (fst q - fst p, snd q - snd p) :: diff rest
  | _ => []
  end.

(** [np.linalg.norm(_, axis=1)]: the Euclidean length of each row. *)
Definition norm (d : point) : R := sqrt (fst d * fst d + snd d * snd d).

(** [np.sum]. *)
Definition sum (l : list R) : R := fold_right Rplus 0 l.

(** [np.linspace(start, stop, num)]: [num] evenly spaced samples, both
    ends included. *)
Definition linspace (start stop : R) (num : nat) : list R :=
  match num with
  | O => []
  | S O => [start]
  | S n => map (fun i => start + INR i * ((stop - start) / INR n)) (seq 0 num)
  end.

(** [np.arange(start, stop, step)]: [ceil((stop - start) / step)] samples. *)
Definition arange (start stop step : R) : list R :=
  map (fun i => start + INR i * step)
      (seq 0 (Z.to_nat (ceilZ ((stop - start) / step)))).

(** ** Time stamps as the specification words them

    "a monotonically increasing time stamp to each waypoint proportional to
    cumulative path-arc-length divided by nominal speed": the arc length
    walked up to each waypoint, over the speed.  Kept apart from the
    planner's own computation, to compare the two. *)

Fixpoint cumulative (acc : R) (ds : list R) : list R :=
  match ds with
  | [] => [acc]
  | d :: rest => acc :: cumulative (acc + d) rest
  end.

Definition arc_length_times (V : R) (path : list point) : list R :=
  map (fun d => d / V) (cumulative 0 (map norm (diff path))).

(** ** Collaborators *)

(** Result of running the A* search: what [astar.solve()] returned and the
    [astar.path] it left behind. *)
Record AStarRun : Type := mkAStar { solve : bool; astar_path : list point }.

Class Collaborators : Type := {
  (** [asl_tb3_lib.grids.StochOccupancyGrid2D] and the map message it is
      built from *)
  StochOccupancyGrid2D : Type;
  OccupancyGrid : Type;
  make_grid : OccupancyGrid -> StochOccupancyGrid2D;
  is_free : StochOccupancyGrid2D -> point -> bool;
  (** [scipy.interpolate]: [splrep] may reject its input with an exception
      ([None] here); [splev t tck der] *)
  Spline : Type;
  splrep : list R -> list R -> option Spline;
  splev : R -> Spline -> nat -> R;
  (** [AStar(statespace_lo, statespace_hi, x_init, x_goal, occupancy,
      resolution)] followed by [solve()]; the file uses the class without
      defining or importing it *)
  AStar : point -> point -> point -> point -> StochOccupancyGrid2D -> R -> AStarRun;
  (** [asl_tb3_lib.math_utils] *)
  distance_linear : TurtleBotState -> TurtleBotState -> R;
  distance_angular : TurtleBotState -> TurtleBotState -> R;
  (** [rclpy.duration.Duration(seconds=s)], in nanoseconds *)
  Duration : R -> Z;
  (** controller attributes read through [self] *)
  kp : R; kpx : R; kpy : R; kdx : R; kdy : R;
  V_max : R;
  V_PREV_THRES : R;
  (** node parameters read with [get_parameter] *)
  theta_start_thresh : R;
  plan_thresh : R;
  near_thresh : R;
  at_thresh_theta : R;
  plan_resolution : R;
  plan_horizon : R
}.

(** ** What a method does besides changing the node *)

Inductive Message : Type :=
| UnableToReplan          (* "Unable to replan: occupancy map not yet available" *)
| ReplanningFailed        (* "Replanning failed" *)
| ReplannedTo (g : TurtleBotState)
| SwitchingMode (old new : NavMode)
| OutOfTimeOrStuck        (* "Replanning because out of time or stuck" *)
| FarFromPlan.            (* "Replanning because far from planned trajectory" *)

Inductive Event : Type :=
| LogWarn (m : Message)
| LogInfo (m : Message)
| PubNavSuccess (data : bool)
| PubPlannedPath (poses : list point)
| PubSmoothedPath (poses : list point)
| Stop
| AStarSolve (x_init x_goal : point).

Inductive exn : Type :=
| AttributeError          (* an attribute of [None] was read *)
| SplineError.            (* raised inside [splrep] *)

Inductive result (A : Type) : Type :=
| Ok (a : A)
| Raise (e : exn).
Arguments Ok {A} a.
Arguments Raise {A} e.

(** ** Reading a trace *)

(** Every [AStarSolve] in the trace comes right after a [Stop];
    [prev_stop] says whether the event before the trace was one. *)
Fixpoint guarded_from (prev_stop : bool) (tr : list Event) : bool :=
  match tr with
  | [] => true
  | AStarSolve _ _ :: rest => prev_stop && guarded_from false rest
  | Stop :: rest => guarded_from true rest
  | _ :: rest => guarded_from false rest
  end.

Definition stop_guarded (tr : list Event) : bool := guarded_from false tr.

(** Number of searches in a trace. *)
Fixpoint searches (tr : list Event) : nat :=
  match tr with
  | [] => O
  | AStarSolve _ _ :: rest => S (searches rest)
  | _ :: rest => searches rest
  end.

Section Navigator.

Context {C : Collaborators}.

(** ** TrajectoryPlan *)

Record TrajectoryPlan : Type := mkPlan {
  path : list point;
  path_x_spline : Spline;
  path_y_spline : Spline;
  duration : R
}.

Definition desired_state (p : TrajectoryPlan) (t : R) : TurtleBotState :=
  let x_d := splev t (path_x_spline p) 1 in
  let y_d := splev t (path_y_spline p) 1 in
  mkState (splev t (path_x_spline p) 0)
          (splev t (path_y_spline p) 0)
          (arctan2 y_d x_d).

Definition smoothed_path (p : TrajectoryPlan) (dt : R) : list point :=
  let ts := arange 0 (duration p) dt in
  combine (map (fun t => splev t (path_x_spline p) 0) ts)
          (map (fun t => splev t (path_y_spline p) 0) ts).

(** ** The node and its effects *)

(** Clock readings and time differences, in nanoseconds. *)
Definition Time : Type := Z.

Record Nav : Type := mkNav {
  mode : NavMode;
  is_planned : bool;
  plan_start_time : Time;
  plan : option TrajectoryPlan;
  goal : option TurtleBotState;
  occupancy : option StochOccupancyGrid2D;
  (** inherited from [BaseController]: latest pose, the node's clock *)
  state : TurtleBotState;
  clock : Time;
  (** running state of the tracking controller *)
  V_prev : R;
  t_prev : R;
  om_prev : R
}.

Definition M (A : Type) : Type := Nav -> result A * Nav * list Event.

Definition ret {A} (a : A) : M A := fun s => (Ok a, s, []).

Definition bind {A B} (c : M A) (k : A -> M B) : M B :=
  fun s =>
    match c s with
    | (Ok a, s1, tr1) =>
        match k a s1 with
        | (r, s2, tr2) => (r, s2, tr1 ++ tr2)
        end
    | (Raise e, s1, tr1) => (Raise e, s1, tr1)
    end.

Definition raise {A} (e : exn) : M A := fun s => (Raise e, s, []).
Definition gets {A} (f : Nav -> A) : M A := fun s => (Ok (f s), s, []).
Definition modify (f : Nav -> Nav) : M unit := fun s => (Ok tt, f s, []).
Definition emit (e : Event) : M unit := fun s => (Ok tt, s, [e]).

(** Reading an [Optional] attribute that must not be [None]. *)
Definition deref {A} (f : Nav -> option A) : M A :=
  fun s => match f s with
           | Some a => (Ok a, s, [])
           | None => (Raise AttributeError, s, [])
           end.

Notation "a <- c ;; k" := (bind c (fun a => k))
  (at level 61, c at next level, right associativity).
Notation "c ;; k" := (bind c (fun _ => k))
  (at level 61, right associativity).

Definition value {A} (o : result A * Nav * list Event) : result A := fst (fst o).
Definition final {A} (o : result A * Nav * list Event) : Nav := snd (fst o).
Definition trace {A} (o : result A * Nav * list Event) : list Event := snd o.

(** Assignments to the attributes of [self]. *)
Definition set_mode (m : NavMode) (s : Nav) : Nav :=
  mkNav m (is_planned s) (plan_start_time s) (plan s) (goal s) (occupancy s)
        (state s) (clock s) (V_prev s) (t_prev s) (om_prev s).
Definition set_is_planned (b : bool) (s : Nav) : Nav :=
  mkNav (mode s) b (plan_start_time s) (plan s) (goal s) (occupancy s)
        (state s) (clock s) (V_prev s) (t_prev s) (om_prev s).
Definition set_plan_start_time (t : Time) (s : Nav) : Nav :=
  mkNav (mode s) (is_planned s) t (plan s) (goal s) (occupancy s)
        (state s) (clock s) (V_prev s) (t_prev s) (om_prev s).
Definition set_plan (p : option TrajectoryPlan) (s : Nav) : Nav :=
  mkNav (mode s) (is_planned s) (plan_start_time s) p (goal s) (occupancy s)
        (state s) (clock s) (V_prev s) (t_prev s) (om_prev s).
Definition set_goal (g : option TurtleBotState) (s : Nav) : Nav :=
  mkNav (mode s) (is_planned s) (plan_start_time s) (plan s) g (occupancy s)
        (state s) (clock s) (V_prev s) (t_prev s) (om_prev s).
Definition set_occupancy (o : option StochOccupancyGrid2D) (s : Nav) : Nav :=
  mkNav (mode s) (is_planned s) (plan_start_time s) (plan s) (goal s) o
        (state s) (clock s) (V_prev s) (t_prev s) (om_prev s).
Definition set_state (p : TurtleBotState) (s : Nav) : Nav :=
  mkNav (mode s) (is_planned s) (plan_start_time s) (plan s) (goal s) (occupancy s)
        p (clock s) (V_prev s) (t_prev s) (om_prev s).
Definition set_clock (t : Time) (s : Nav) : Nav :=
  mkNav (mode s) (is_planned s) (plan_start_time s) (plan s) (goal s) (occupancy s)
        (state s) t (V_prev s) (t_prev s) (om_prev s).
Definition set_V_prev (r : R) (s : Nav) : Nav :=
  mkNav (mode s) (is_planned s) (plan_start_time s) (plan s) (goal s) (occupancy s)
        (state s) (clock s) r (t_prev s) (om_prev s).
Definition set_t_prev (r : R) (s : Nav) : Nav :=
  mkNav (mode s) (is_planned s) (plan_start_time s) (plan s) (goal s) (occupancy s)
        (state s) (clock s) (V_prev s) r (om_prev s).
Definition set_om_prev (r : R) (s : Nav) : Nav :=
  mkNav (mode s) (is_planned s) (plan_start_time s) (plan s) (goal s) (occupancy s)
        (state s) (clock s) (V_prev s) (t_prev s) r.

(** [(a - b).nanoseconds * 1e-9] *)
Definition seconds (d : Time) : R := IZR d * / 1000000000.

(** ** Controllers *)

Definition compute_heading_control (state goal : TurtleBotState) : TurtleBotControl :=
  let heading_error := wrap_angle (theta goal - theta state) in
  let omega := kp * heading_error in
  mkControl (v TurtleBotControl_default) omega.

Definition compute_trajectory_tracking_control
    (state : TurtleBotState) (plan : TrajectoryPlan) (t : R) : M TurtleBotControl :=
  let '(mkState x y th) := state in
  self_t_prev <- gets t_prev ;;
  let dt := t - self_t_prev in
  let x_d := splev t (path_x_spline plan) 0 in
  let xd_d := splev t (path_x_spline plan) 1 in
  let xdd_d := splev t (path_x_spline plan) 2 in
  let y_d := splev t (path_y_spline plan) 0 in
  let yd_d := splev t (path_y_spline plan) 1 in
  let ydd_d := splev t (path_y_spline plan) 2 in
  self_V_prev <- gets V_prev ;;
  let ex := x_d - x in
  let ey := y_d - y in
  let ex_dot := xd_d - self_V_prev * cos th in
  let ey_dot := yd_d - self_V_prev * sin th in
  let u1 := xdd_d + kpx * ex + kdx * ex_dot in
  let u2 := ydd_d + kpy * ey + kdy * ey_dot in
  let V_prev := Rmax self_V_prev V_PREV_THRES in
  let a := cos th * u1 + sin th * u2 in
  let om := (- sin th * u1 + cos th * u2) / V_prev in
  let V := V_prev + a * dt in
  modify (set_t_prev t) ;;
  modify (set_V_prev V) ;;
  modify (set_om_prev om) ;;
  (* TurtleBotControl(velocity=V, angular_velocity=om): the two keyword
     arguments are the message's linear speed and angular rate *)
  ret (mkControl V om).

(** ** Mode switching and the replanning predicates *)

Definition switch_mode (new_mode : NavMode) : M unit :=
  m <- gets mode ;;
  if NavMode_eq_dec m new_mode then ret tt
  else
    emit (LogInfo (SwitchingMode m new_mode)) ;;
    modify (set_mode new_mode).

Definition near_goal : M bool :=
  st <- gets state ;;
  g <- deref goal ;;
  ret (if Rlt_dec (distance_linear st g) near_thresh then true else false).

Definition aligned (target : TurtleBotState) : M bool :=
  st <- gets state ;;
  ret (if Rlt_dec (distance_angular st target) theta_start_thresh then true else false).

Definition close_to_plan : M bool :=
  now <- gets clock ;;
  start <- gets plan_start_time ;;
  let t := seconds (now - start)%Z in
  st <- gets state ;;
  p <- deref plan ;;
  ret (if Rlt_dec (distance_linear st (desired_state p t)) plan_thresh then true else false).

Definition can_compute_control : M bool := gets is_planned.

(** ** Plan construction *)

Definition compute_trajectory_plan
    (state goal : TurtleBotState) (occupancy : StochOccupancyGrid2D)
    (resolution horizon : R) : M (option TrajectoryPlan) :=
  (* Step 1 and 2: set up and solve the A* problem *)
  let astar := AStar (-10, -10) (10, 10) (x state, y state) (x goal, y goal)
                     occupancy resolution in
  emit (AStarSolve (x state, y state) (x goal, y goal)) ;;
  if negb (solve astar) || (length (astar_path astar) <? 4)%nat then ret None
  else
    (* Step 3: reset controller variables *)
    modify (set_V_prev 0) ;;
    modify (set_t_prev 0) ;;
    (* Step 4: path time computation *)
    let path := astar_path astar in
    let distances := map norm (diff path) in
    let total_distance := sum distances in
    let total_time := total_distance / V_max in
    let times := linspace 0 total_time (length path) in
    (* Step 5: fit the splines *)
    match splrep times (map fst path) with
    | None => raise SplineError
    | Some x_spline =>
        match splrep times (map snd path) with
        | None => raise SplineError
        | Some y_spline =>
            (* Step 6 *)
            ret (Some (mkPlan path x_spline y_spline total_time))
        end
    end.

(** ** Handlers *)

Definition publish_planned_path : M unit :=
  p <- deref plan ;;
  emit (PubPlannedPath (path p)).

Definition publish_smooth_path : M unit :=
  p <- deref plan ;;
  emit (PubSmoothedPath (smoothed_path p (1 / 10))).

(** [replan] is annotated to receive a [TurtleBotState]; the two internal
    callers pass [self.goal], which they read with [deref]: with
    [self.goal = None] the Python call fails on the first use of the goal
    in [near_goal], before any attribute changes or anything is emitted. *)
Definition replan (goal : TurtleBotState) : M unit :=
  occ <- gets occupancy ;;
  match occ with
  | None => emit (LogWarn UnableToReplan)
  | Some occ =>
      (* no need to plan if close to target *)
      modify (set_goal (Some goal)) ;;
      near <- near_goal ;;
      if near then
        modify (set_is_planned true) ;;
        switch_mode PARK
      else
        (* stop the robot before planning *)
        emit Stop ;;
        st <- gets state ;;
        new_plan <- compute_trajectory_plan st goal occ plan_resolution plan_horizon ;;
        match new_plan with
        | None =>
            (* planning failed *)
            modify (set_is_planned false) ;;
            emit (LogWarn ReplanningFailed) ;;
            emit (PubNavSuccess false)
        | Some new_plan =>
            (* planning succeeded *)
            modify (set_is_planned true) ;;
            modify (set_plan (Some new_plan)) ;;
            emit (LogInfo (ReplannedTo goal)) ;;
            publish_planned_path ;;
            publish_smooth_path ;;
            p <- deref plan ;;
            al <- aligned (desired_state p 0) ;;
            if al then
              now <- gets clock ;;
              modify (set_plan_start_time now) ;;
              switch_mode TRACK
            else
              switch_mode ALIGN
        end
  end.

Definition map_callback (msg : OccupancyGrid) : M unit :=
  modify (set_occupancy (Some (make_grid msg))) ;;
  planned <- gets is_planned ;;
  if planned then
    occ <- deref occupancy ;;
    p <- deref plan ;;
    if negb (forallb (is_free occ) (tl (path p))) then
      modify (set_is_planned false) ;;
      g <- deref goal ;;
      replan g
    else ret tt
  else ret tt.

Definition compute_control : M TurtleBotControl :=
  (* state machine switch *)
  m <- gets mode ;;
  match m with
  | ALIGN =>
      p <- deref plan ;;
      al <- aligned (desired_state p 0) ;;
      if al then
        now <- gets clock ;;
        modify (set_plan_start_time now) ;;
        switch_mode TRACK
      else ret tt
  | TRACK =>
      near <- near_goal ;;
      if near then
        switch_mode PARK ;;
        emit (PubNavSuccess true)
      else
        now <- gets clock ;;
        start <- gets plan_start_time ;;
        p <- deref plan ;;
        if (now - start >? Duration (duration p))%Z then
          emit (LogInfo OutOfTimeOrStuck) ;;
          modify (set_is_planned false) ;;
          g <- deref goal ;;
          replan g
        else
          close <- close_to_plan ;;
          if negb close then
            emit (LogInfo FarFromPlan) ;;
            modify (set_is_planned false) ;;
            g <- deref goal ;;
            replan g
          else ret tt
  | PARK =>
      g <- deref goal ;;
      al <- aligned g ;;
      if al then
        modify (set_is_planned false) ;;
        switch_mode IDLE
      else ret tt
  | IDLE => ret tt
  end ;;
  (* compute control *)
  m <- gets mode ;;
  match m with
  | ALIGN =>
      st <- gets state ;;
      p <- deref plan ;;
      ret (compute_heading_control st (desired_state p 0))
  | TRACK =>
      st <- gets state ;;
      p <- deref plan ;;
      now <- gets clock ;;
      start <- gets plan_start_time ;;
      compute_trajectory_tracking_control st p (seconds (now - start)%Z)
  | PARK =>
      st <- gets state ;;
      g <- deref goal ;;
      ret (compute_heading_control st g)
  | IDLE => ret TurtleBotControl_default
  end.

(** ** Runs of the node *)

(** The node as [__init__] leaves it. *)
Definition initial (s : Nav) : Prop :=
  mode s = IDLE /\ is_planned s = false /\ plan_start_time s = clock s /\
  plan s = None /\ goal s = None /\ occupancy s = None.

(** What can happen to the node: a goal request on [/cmd_nav], a map on
    [/map], a tick of the control loop, a new pose estimate, the clock
    moving on. *)
Inductive Input : Type :=
| GoalRequest (g : TurtleBotState)
| MapUpdate (msg : OccupancyGrid)
| Tick
| PoseUpdate (p : TurtleBotState)
| ClockAdvance (t : Time).

Definition handle (i : Input) (s : Nav) : Nav :=
  match i with
  | GoalRequest g => final (replan g s)
  | MapUpdate msg => final (map_callback msg s)
  | Tick => final (compute_control s)
  | PoseUpdate p => set_state p s
  | ClockAdvance t => set_clock t s
  end.

Inductive reachable : Nav -> Prop :=
| reachable_init s : initial s -> reachable s
| reachable_step s i : reachable s -> reachable (handle i s).

(** ** Relating the node before and after a method *)

(** [keeps R c]: every run of [c], returning or raising, leaves the node
    related by [R] to the one it started from. *)
Definition keeps (R : Nav -> Nav -> Prop) {A} (c : M A) : Prop :=
  forall s, R s (final (c s)).

(** The occupancy map is not touched. *)
Definition same_map (s s' : Nav) : Prop := occupancy s' = occupancy s.

(** Without a map, a method neither obtains one nor raises the planned flag. *)
Definition no_plan_without_map (s s' : Nav) : Prop :=
  occupancy s = None ->
  occupancy s' = None /\ (is_planned s' = true -> is_planned s = true).

(** The planned flag is never up before a map has arrived. *)
Definition map_before_plan (s : Nav) : Prop :=
  occupancy s = None -> is_planned s = false.

(** What each mode needs in order to be served by [compute_control]. *)
Definition mode_supported (s : Nav) : Prop :=
  match mode s with
  | IDLE => True
  | ALIGN | TRACK => plan s <> None /\ goal s <> None /\ occupancy s <> None
  | PARK => goal s <> None /\ occupancy s <> None
  end.

(** A map, a goal or a plan, once there, is still there. *)
Definition never_forgets (s s' : Nav) : Prop :=
  (occupancy s <> None -> occupancy s' <> None)
  /\ (goal s <> None -> goal s' <> None)
  /\ (plan s <> None -> plan s' <> None).

End Navigator.

(** ** A test bench

    Concrete collaborators on which the statements below are exercised.
    The search is a parameter of the bench; splines keep the knots and the
    values they were fitted to, and [splrep] rejects knots that are not
    strictly strictly_increasing. *)

Fixpoint strictly_increasing (l : list R) : bool :=
  match l with
  | a :: (b :: _) as rest => if Rlt_dec a b then strictly_increasing rest else false
  | _ => true
  end.

Definition euclid (a b : TurtleBotState) : R := norm (x a - x b, y a - y b).

Definition bench (search : point -> point -> AStarRun) : Collaborators := {|
  StochOccupancyGrid2D := unit;
  OccupancyGrid := unit;
  make_grid := fun _ => tt;
  is_free := fun _ _ => true;
  Spline := (list R * list R)%type;
  splrep := fun ts vs => if strictly_increasing ts then Some (ts, vs) else None;
  splev := fun t tck der => match der with O => hd 0 (snd tck) | _ => 0 end;
  AStar := fun _ _ x_init x_goal _ _ => search x_init x_goal;
  distance_linear := euclid;
  distance_angular := fun a b => Rabs (wrap_angle (theta a - theta b));
  Duration := fun s => Int_part (s * 1000000000);
  kp := 1; kpx := 1; kpy := 1; kdx := 1; kdy := 1;
  V_max := 1;
  V_PREV_THRES := 1 / 10;
  theta_start_thresh := 5 / 100;
  plan_thresh := 3 / 10;
  near_thresh := 1 / 10;
  at_thresh_theta := 2 / 100;
  plan_resolution := 1;
  plan_horizon := 10
|}.

(** A search that finds nothing. *)
Definition no_path (a b : point) : AStarRun := mkAStar false [].

(** A search that returns three waypoints. *)
Definition three_points (a b : point) : AStarRun := mkAStar true [a; (1, 1); b].

(** A path on the unit grid with one diagonal step between two straight ones. *)
Definition staircase (a b : point) : AStarRun :=
  mkAStar true [(0, 0); (1, 0); (2, 1); (3, 1)].

(** Four waypoints on one spot. *)
Definition stuck (a b : point) : AStarRun :=
  mkAStar true [(0, 0); (0, 0); (0, 0); (0, 0)].

(** The node as [__init__] leaves it, the robot at the origin. *)
Definition power_on {C : Collaborators} : Nav :=
  mkNav IDLE false 0%Z None None None (mkState 0 0 0) 0%Z 0 0 0.

(** The same node once a map has been received. *)
Definition mapped (search : point -> point -> AStarRun) : @Nav (bench search) :=
  @mkNav (bench search) IDLE false 0%Z None None (Some tt) (mkState 0 0 0) 0%Z 0 0 0.

(** A plan along the staircase, lasting three seconds. *)
Definition bench_plan (search : point -> point -> AStarRun)
  : @TrajectoryPlan (bench search) :=
  @mkPlan (bench search) [(0, 0); (1, 0); (2, 1); (3, 1)]
          ([0; 1; 2; 3], [0; 1; 2; 3]) ([0; 1; 2; 3], [0; 0; 1; 1]) 3.

(** The node under way in mode [m]: planned, with map, plan and goal, the
    robot at [here]. *)
Definition underway (search : point -> point -> AStarRun) (m : NavMode)
    (here target : TurtleBotState) : @Nav (bench search) :=
  @mkNav (bench search) m true 0%Z (Some (bench_plan search)) (Some target)
         (Some tt) here 0%Z 0 0 0.

(** The node after a first map and then a goal request for the very spot the
    robot stands on. *)
Definition parked_early : @Nav (bench no_path) :=
  handle (GoalRequest (mkState 0 0 0)) (mapped no_path).

(** The bench with every cell of the map occupied. *)
Definition walled (search : point -> point -> AStarRun) : Collaborators := {|
  StochOccupancyGrid2D := unit;
  OccupancyGrid := unit;
  make_grid := fun _ => tt;
  is_free := fun _ _ => false;
  Spline := (list R * list R)%type;
  splrep := fun ts vs => if strictly_increasing ts then Some (ts, vs) else None;
  splev := fun t tck der => match der with O => hd 0 (snd tck) | _ => 0 end;
  AStar := fun _ _ x_init x_goal _ _ => search x_init x_goal;
  distance_linear := euclid;
  distance_angular := fun a b => Rabs (wrap_angle (theta a - theta b));
  Duration := fun s => Int_part (s * 1000000000);
  kp := 1; kpx := 1; kpy := 1; kdx := 1; kdy := 1;
  V_max := 1;
  V_PREV_THRES := 1 / 10;
  theta_start_thresh := 5 / 100;
  plan_thresh := 3 / 10;
  near_thresh := 1 / 10;
  at_thresh_theta := 2 / 100;
  plan_resolution := 1;
  plan_horizon := 10
|}.

(** The node under way behind the walls. *)
Definition walled_in (search : point -> point -> AStarRun)
  : @Nav (walled search) :=
  @mkNav (walled search) TRACK true 0%Z
         (Some (@mkPlan (walled search) [(0, 0); (1, 0); (2, 1); (3, 1)]
                        ([0; 1; 2; 3], [0; 1; 2; 3]) ([0; 1; 2; 3], [0; 0; 1; 1]) 3))
         (Some (mkState 3 4 0)) (Some tt) (mkState 0 0 0) 0%Z 0 0 0.

(** ** Properties of the angle wrap *)

Lemma ceilZ_spec (r : R) : IZR (ceilZ r) - 1 < r <= IZR (ceilZ r).
Proof.
  unfold ceilZ. rewrite minus_IZR.
  destruct (archimed (- r)) as [Hgt Hle]. simpl. lra.
Qed.

Lemma wrap_angle_range (a : R) : - PI < wrap_angle a <= PI.
Proof.
  unfold wrap_angle.
  pose proof PI_RGT_0 as Hpi.
  destruct (ceilZ_spec ((a - PI) / (2 * PI))) as [Hlo Hhi].
  set (c := IZR (ceilZ ((a - PI) / (2 * PI)))) in *.
  assert (H2 : 0 < 2 * PI) by lra.
  assert (Ha : (a - PI) / (2 * PI) * (2 * PI) = a - PI) by (field; lra).
  split.
  - apply Rmult_lt_compat_r with (r := 2 * PI) in Hlo; [| exact H2]. lra.
  - apply Rmult_le_compat_r with (r := 2 * PI) in Hhi; [| lra]. lra.
Qed.

Lemma wrap_angle_congr (a : R) : exists k : Z, wrap_angle a = a + 2 * PI * IZR k.
Proof.
  exists (- ceilZ ((a - PI) / (2 * PI)))%Z.
  unfold wrap_angle. rewrite opp_IZR. ring.
Qed.

Lemma full_turns_zero (k : Z) : - (2 * PI) < 2 * PI * IZR k < 2 * PI -> k = 0%Z.
Proof.
  intros [Hlo Hhi]. pose proof PI_RGT_0 as Hpi.
  assert (H1 : IZR k < 1) by nra.
  assert (H2 : -1 < IZR k) by nra.
  apply lt_IZR in H1. change (-1) with (IZR (-1)) in H2. apply lt_IZR in H2. lia.
Qed.

(** The wrapped angle is the only representative in (−π, π]. *)
Lemma wrap_angle_unique (a d : R) (k : Z) :
  - PI < d <= PI -> d = a + 2 * PI * IZR k -> wrap_angle a = d.
Proof.
  intros Hd Hk.
  destruct (wrap_angle_range a) as [Hlo Hhi].
  destruct (wrap_angle_congr a) as [j Hj].
  assert (Hz : (j - k)%Z = 0%Z).
  { apply full_turns_zero. rewrite minus_IZR. lra. }
  assert (j = k) by lia. subst j. lra.
Qed.

Lemma wrap_angle_0 : wrap_angle 0 = 0.
Proof.
  pose proof PI_RGT_0.
  apply (wrap_angle_unique 0 0 0); [lra | simpl; ring].
Qed.

Section Controllers.

Context {C : Collaborators}.

(** C2.  The heading controller is a function of the two headings alone:
    its command has zero linear speed and angular rate [kp] times the
    heading error wrapped into (−π, π].  Hence equal headings give exactly
    zero; whenever [d] is the rotation from the current to the target
    heading that lies in (−π, π] (the shortest way round), the command is
    [kp * d], and with a positive gain it has the sign of [d]; from 179° to
    −179° the command is [kp] times +2°. *)
Theorem heading_control_wrapped_error (cur tgt : TurtleBotState) :
  let w := wrap_angle (theta tgt - theta cur) in
  let om := omega (compute_heading_control cur tgt) in
  compute_heading_control cur tgt = mkControl 0 (kp * w)
  /\ - PI < w <= PI
  /\ (exists k : Z, w = theta tgt - theta cur + 2 * PI * IZR k)
  /\ (theta cur = theta tgt -> om = 0)
  /\ (forall (d : R) (k : Z),
        d = theta tgt - theta cur + 2 * PI * IZR k -> - PI < d <= PI ->
        om = kp * d
        /\ (0 < kp -> (0 < d -> 0 < om) /\ (d < 0 -> om < 0) /\ (d = 0 -> om = 0)))
  /\ (theta cur = 179 * PI / 180 -> theta tgt = - 179 * PI / 180 ->
        om = kp * (2 * PI / 180)).
Proof.
  intros w om.
  assert (Hom : om = kp * w) by reflexivity.
  split; [reflexivity |].
  split; [apply wrap_angle_range |].
  split; [apply wrap_angle_congr |].
  split.
  { intros Heq. rewrite Hom. unfold w. rewrite Heq.
    replace (theta tgt - theta tgt) with 0 by ring.
    rewrite wrap_angle_0. ring. }
  split.
  { intros d k Hd Hrange.
    assert (Hw : w = d) by (apply (wrap_angle_unique _ d k); assumption).
    rewrite Hom, Hw. split; [reflexivity |].
    intros Hkp. repeat split; intros Hs.
    - apply Rmult_lt_0_compat; assumption.
    - nra.
    - subst d. rewrite Hs. ring. }
  intros Hc Ht. rewrite Hom. f_equal. unfold w.
  pose proof PI_RGT_0 as Hpi.
  apply (wrap_angle_unique _ _ 1); [lra |].
  rewrite Hc, Ht. simpl. field.
Qed.

(** C1.  One call of the tracking controller: the virtual inputs are the
    desired acceleration plus proportional feedback on the position error
    and derivative feedback on the velocity error, the latter taken against
    the stored speed along the current heading; the forward acceleration and
    the angular rate are the components of the virtual input along and
    across the heading, the second divided by the stored speed clamped below
    at [V_PREV_THRES]; the commanded speed is the clamped speed plus the
    acceleration times [t - t_prev].  The call returns that command and
    stores [t], the new speed and the angular rate. *)
Theorem tracking_control_law
    (s : Nav) (st : TurtleBotState) (p : TrajectoryPlan) (t : R) :
  let th := theta st in
  let u1 := splev t (path_x_spline p) 2
            + kpx * (splev t (path_x_spline p) 0 - x st)
            + kdx * (splev t (path_x_spline p) 1 - V_prev s * cos th) in
  let u2 := splev t (path_y_spline p) 2
            + kpy * (splev t (path_y_spline p) 0 - y st)
            + kdy * (splev t (path_y_spline p) 1 - V_prev s * sin th) in
  let a := cos th * u1 + sin th * u2 in
  let clamped := Rmax (V_prev s) V_PREV_THRES in
  let om := (- sin th * u1 + cos th * u2) / clamped in
  let V := clamped + a * (t - t_prev s) in
  let out := compute_trajectory_tracking_control st p t s in
  value out = Ok (mkControl V om)
  /\ final out =
       mkNav (mode s) (is_planned s) (plan_start_time s) (plan s) (goal s)
             (occupancy s) (state s) (clock s) V t om
  /\ trace out = [].
Proof.
  destruct st as [px py th0]. simpl.
  repeat split.
Qed.

(** C10.  Whatever speed is stored, zero and negative ones included, the
    divisor of the angular-rate computation is at least the positive
    threshold [V_PREV_THRES], hence not zero, and the angular rate returned
    is a true quotient by it. *)
Theorem tracking_divisor_at_least_threshold
    (s : Nav) (st : TurtleBotState) (p : TrajectoryPlan) (t : R) :
  0 < V_PREV_THRES ->
  let u1 := splev t (path_x_spline p) 2
            + kpx * (splev t (path_x_spline p) 0 - x st)
            + kdx * (splev t (path_x_spline p) 1 - V_prev s * cos (theta st)) in
  let u2 := splev t (path_y_spline p) 2
            + kpy * (splev t (path_y_spline p) 0 - y st)
            + kdy * (splev t (path_y_spline p) 1 - V_prev s * sin (theta st)) in
  let divisor := Rmax (V_prev s) V_PREV_THRES in
  V_PREV_THRES <= divisor /\ divisor <> 0
  /\ exists c : TurtleBotControl,
       value (compute_trajectory_tracking_control st p t s) = Ok c
       /\ omega c = (- sin (theta st) * u1 + cos (theta st) * u2) / divisor
       /\ omega c * divisor = - sin (theta st) * u1 + cos (theta st) * u2.
Proof.
  intros Hpos u1 u2 divisor.
  assert (Hge : V_PREV_THRES <= divisor) by apply Rmax_r.
  assert (Hnz : divisor <> 0) by lra.
  repeat split; try assumption.
  destruct st as [px py th].
  eexists. split; [reflexivity |]. simpl.
  split; [reflexivity |].
  subst u1 u2 divisor. simpl.
  unfold Rdiv. rewrite Rmult_assoc, Rinv_l by exact Hnz. apply Rmult_1_r.
Qed.

End Controllers.

(** ** The state machine *)

Section Machine.

Context {C : Collaborators}.

(** *** Composing [keeps] along a method body *)

Section Keeps.

Context (R : Nav -> Nav -> Prop) {HR : PreOrder R}.

Lemma keeps_ret {A} (a : A) : keeps R (ret a).
Proof. intros s. apply HR. Qed.

Lemma keeps_gets {A} (f : Nav -> A) : keeps R (gets f).
Proof. intros s. apply HR. Qed.

Lemma keeps_emit (e : Event) : keeps R (emit e).
Proof. intros s. apply HR. Qed.

Lemma keeps_raise {A} (e : exn) : keeps R (@raise _ A e).
Proof. intros s. apply HR. Qed.

Lemma keeps_deref {A} (f : Nav -> option A) : keeps R (deref f).
Proof. intros s. unfold deref, final. destruct (f s); apply HR. Qed.

Lemma keeps_modify (f : Nav -> Nav) : (forall s, R s (f s)) -> keeps R (modify f).
Proof. intros H s. apply H. Qed.

Lemma keeps_bind {A B} (c : M A) (k : A -> M B) :
  keeps R c -> (forall a, keeps R (k a)) -> keeps R (bind c k).
Proof.
  intros Hc Hk s. specialize (Hc s). unfold bind, final in *.
  destruct (c s) as [[[a | e] s1] tr1]; simpl in *.
  - specialize (Hk a s1). unfold final in Hk.
    destruct (k a s1) as [[r s2] tr2]. simpl in *.
    transitivity s1; assumption.
  - assumption.
Qed.

End Keeps.

Ltac keeps_step :=
  first
    [ apply keeps_bind; [exact _ | | intros ?]
    | apply keeps_ret; exact _
    | apply keeps_gets; exact _
    | apply keeps_emit; exact _
    | apply keeps_raise; exact _
    | apply keeps_deref; exact _
    | apply keeps_modify; intros ?; hnf; simpl; solve [ intuition (auto; congruence) ]
    | match goal with
      | |- keeps _ (if ?b then _ else _) => destruct b
      | |- keeps _ (match ?o with _ => _ end) => destruct o
      end ].

Lemma final_bind {A B} (c : M A) (k : A -> M B) (s : Nav) :
  final (bind c k s) =
  match c s with
  | (Ok a, s1, _) => final (k a s1)
  | (Raise _, s1, _) => s1
  end.
Proof.
  unfold bind, final. destruct (c s) as [[[a | e] s1] tr1]; [| reflexivity].
  destruct (k a s1) as [[r s2] tr2]. reflexivity.
Qed.

(** *** No method drops the map *)

#[local] Instance same_map_preorder : PreOrder same_map.
Proof.
  split.
  - intros s. reflexivity.
  - intros a b c Hab Hbc. unfold same_map in *. congruence.
Qed.

Lemma switch_mode_same_map m : keeps same_map (switch_mode m).
Proof. unfold switch_mode. repeat keeps_step. Qed.

Lemma near_goal_same_map : keeps same_map near_goal.
Proof. unfold near_goal. repeat keeps_step. Qed.

Lemma aligned_same_map t : keeps same_map (aligned t).
Proof. unfold aligned. repeat keeps_step. Qed.

Lemma close_to_plan_same_map : keeps same_map close_to_plan.
Proof. unfold close_to_plan. repeat keeps_step. Qed.

Lemma tracking_same_map st p t :
  keeps same_map (compute_trajectory_tracking_control st p t).
Proof. destruct st. unfold compute_trajectory_tracking_control. repeat keeps_step. Qed.

Lemma plan_same_map st g occ res hor :
  keeps same_map (compute_trajectory_plan st g occ res hor).
Proof. unfold compute_trajectory_plan. repeat keeps_step. Qed.

Lemma replan_same_map g : keeps same_map (replan g).
Proof.
  unfold replan, publish_planned_path, publish_smooth_path.
  repeat first [ apply switch_mode_same_map | apply near_goal_same_map
               | apply aligned_same_map | apply plan_same_map | keeps_step ].
Qed.

Lemma compute_control_same_map : keeps same_map compute_control.
Proof.
  unfold compute_control.
  repeat first [ apply switch_mode_same_map | apply near_goal_same_map
               | apply aligned_same_map | apply close_to_plan_same_map
               | apply tracking_same_map | apply replan_same_map | keeps_step ].
Qed.

Lemma map_callback_has_map (msg : OccupancyGrid) (s : Nav) :
  occupancy (final (map_callback msg s)) = Some (make_grid msg).
Proof.
  unfold map_callback. rewrite final_bind. unfold modify at 1. cbv iota beta.
  transitivity (occupancy (set_occupancy (Some (make_grid msg)) s)); [| reflexivity].
  match goal with
  | |- occupancy (final (?c ?s1)) = occupancy ?s1 =>
      change (same_map s1 (final (c s1))); generalize s1;
      change (keeps same_map c)
  end.
  repeat first [ apply replan_same_map | keeps_step ].
Qed.

(** *** Without a map nothing gets planned *)

#[local] Instance no_plan_without_map_preorder : PreOrder no_plan_without_map.
Proof.
  split.
  - intros s H. auto.
  - intros a b c Hab Hbc H.
    destruct (Hab H) as [Hb Hpb]. destruct (Hbc Hb) as [Hc Hpc]. auto.
Qed.

Lemma replan_without_map (g : TurtleBotState) (s : Nav) :
  occupancy s = None -> replan g s = (Ok tt, s, [LogWarn UnableToReplan]).
Proof.
  intros H. unfold replan. unfold bind at 1. unfold gets at 1.
  rewrite H. reflexivity.
Qed.

Lemma replan_no_plan_without_map g : keeps no_plan_without_map (replan g).
Proof.
  intros s H. rewrite (replan_without_map g s H). unfold final. simpl. auto.
Qed.

Lemma switch_mode_no_plan_without_map m : keeps no_plan_without_map (switch_mode m).
Proof. unfold switch_mode. repeat keeps_step. Qed.

Lemma compute_control_no_plan_without_map : keeps no_plan_without_map compute_control.
Proof.
  unfold compute_control, near_goal, aligned, close_to_plan.
  repeat first [ apply replan_no_plan_without_map
               | apply switch_mode_no_plan_without_map
               | match goal with
                 | |- keeps _ (compute_trajectory_tracking_control ?st _ _) =>
                     destruct st; unfold compute_trajectory_tracking_control
                 end
               | keeps_step ].
Qed.

Lemma map_before_plan_step (s s' : Nav) :
  same_map s s' -> no_plan_without_map s s' ->
  map_before_plan s -> map_before_plan s'.
Proof.
  unfold same_map, map_before_plan. intros Hm Hn Hs Hnone.
  rewrite Hm in Hnone. destruct (Hn Hnone) as [_ Hp].
  destruct (is_planned s') eqn:E; [| reflexivity].
  specialize (Hp eq_refl). rewrite (Hs Hnone) in Hp. discriminate.
Qed.

(** In every state the node can reach, by any sequence of goal requests,
    map updates, ticks, pose updates and clock readings, the planned flag
    is down as long as no map has arrived. *)
Lemma reachable_map_before_plan (s : Nav) : reachable s -> map_before_plan s.
Proof.
  induction 1 as [s Hinit | s i Hreach IH].
  - intros _. apply Hinit.
  - destruct i as [g | msg | | p | t]; simpl.
    + eapply map_before_plan_step;
        [apply replan_same_map | apply replan_no_plan_without_map | exact IH].
    + intros Hnone. rewrite map_callback_has_map in Hnone. discriminate.
    + eapply map_before_plan_step;
        [apply compute_control_same_map
        | apply compute_control_no_plan_without_map | exact IH].
    + exact IH.
    + exact IH.
Qed.

(** *** Mode switching *)

Lemma switch_mode_same (m : NavMode) (s : Nav) :
  mode s = m -> switch_mode m s = (Ok tt, s, []).
Proof.
  intros He. unfold switch_mode, bind, gets. simpl.
  destruct (NavMode_eq_dec (mode s) m) as [_ | Hne]; [reflexivity | contradiction].
Qed.

Lemma switch_mode_other (m : NavMode) (s : Nav) :
  mode s <> m ->
  switch_mode m s = (Ok tt, set_mode m s, [LogInfo (SwitchingMode (mode s) m)]).
Proof.
  intros Hne. unfold switch_mode, bind, gets. simpl.
  destruct (NavMode_eq_dec (mode s) m) as [He | _]; [contradiction | reflexivity].
Qed.

(** C9.  Switching to the mode the node is already in logs nothing and
    leaves the node as it is; switching to any other mode logs the
    transition from the old to the new mode once and changes the mode and
    no other attribute; switching twice to the same mode is switching
    once. *)
Theorem switch_mode_idempotent (s : Nav) (m : NavMode) :
  switch_mode (mode s) s = (Ok tt, s, [])
  /\ (m <> mode s ->
      switch_mode m s =
        (Ok tt,
         mkNav m (is_planned s) (plan_start_time s) (plan s) (goal s)
               (occupancy s) (state s) (clock s) (V_prev s) (t_prev s) (om_prev s),
         [LogInfo (SwitchingMode (mode s) m)]))
  /\ switch_mode m (final (switch_mode m s)) = (Ok tt, final (switch_mode m s), []).
Proof.
  split; [apply switch_mode_same; reflexivity |].
  split.
  - intros Hne. apply switch_mode_other. congruence.
  - apply switch_mode_same.
    destruct (NavMode_eq_dec (mode s) m) as [He | Hne].
    + rewrite (switch_mode_same m s He). exact He.
    + rewrite (switch_mode_other m s Hne). reflexivity.
Qed.

(** *** Plan construction *)

Lemma plan_rejected
    (s : Nav) (st g : TurtleBotState) (occ : StochOccupancyGrid2D) (res hor : R) :
  let run := AStar (-10, -10) (10, 10) (x st, y st) (x g, y g) occ res in
  solve run = false \/ (length (astar_path run) < 4)%nat ->
  compute_trajectory_plan st g occ res hor s =
    (Ok None, s, [AStarSolve (x st, y st) (x g, y g)]).
Proof.
  intros run Hfail. unfold compute_trajectory_plan. fold run.
  assert (Hc : negb (solve run) || (length (astar_path run) <? 4)%nat = true).
  { destruct Hfail as [Hs | Hl].
    - rewrite Hs. reflexivity.
    - apply orb_true_iff. right. apply Nat.ltb_lt. exact Hl. }
  unfold bind, emit. rewrite Hc. reflexivity.
Qed.

(** C4.  When the search fails or leaves fewer than four waypoints, plan
    construction returns [None]: no plan is produced, nothing is raised,
    and the node is left as it was. *)
Theorem short_path_is_failure
    (s : Nav) (st g : TurtleBotState) (occ : StochOccupancyGrid2D) (res hor : R) :
  let run := AStar (-10, -10) (10, 10) (x st, y st) (x g, y g) occ res in
  solve run = false \/ (length (astar_path run) < 4)%nat ->
  value (compute_trajectory_plan st g occ res hor s) = Ok None
  /\ (forall p : TrajectoryPlan,
        value (compute_trajectory_plan st g occ res hor s) <> Ok (Some p))
  /\ final (compute_trajectory_plan st g occ res hor s) = s.
Proof.
  intros run Hfail.
  rewrite (plan_rejected s st g occ res hor Hfail).
  repeat split. intros p. discriminate.
Qed.

(** What plan construction does with a path it accepts: the controller
    state is reset, both splines are fitted on [linspace 0 total_time n],
    and the plan lasts the total length over [V_max]. *)
Lemma plan_accepted
    (s : Nav) (st g : TurtleBotState) (occ : StochOccupancyGrid2D) (res hor : R) :
  let run := AStar (-10, -10) (10, 10) (x st, y st) (x g, y g) occ res in
  solve run = true ->
  (4 <= length (astar_path run))%nat ->
  let total_time := sum (map norm (diff (astar_path run))) / V_max in
  let times := linspace 0 total_time (length (astar_path run)) in
  compute_trajectory_plan st g occ res hor s =
    (match splrep times (map fst (astar_path run)),
           splrep times (map snd (astar_path run)) with
     | Some x_spline, Some y_spline =>
         Ok (Some (mkPlan (astar_path run) x_spline y_spline total_time))
     | _, _ => Raise SplineError
     end,
     set_t_prev 0 (set_V_prev 0 s),
     [AStarSolve (x st, y st) (x g, y g)]).
Proof.
  intros run Hsolve Hlen total_time times.
  unfold compute_trajectory_plan. fold run.
  assert (Hc : negb (solve run) || (length (astar_path run) <? 4)%nat = false).
  { rewrite Hsolve. simpl. apply Nat.ltb_ge. exact Hlen. }
  unfold bind at 1. unfold emit at 1. rewrite Hc.
  fold total_time. fold times.
  unfold bind, modify, raise, ret.
  destruct (splrep times (map fst (astar_path run)));
    destruct (splrep times (map snd (astar_path run))); reflexivity.
Qed.

Lemma map_zero_steps (k : R) (l : list nat) :
  map (fun i => 0 + INR i * ((0 - 0) / k)) l = repeat 0 (length l).
Proof.
  induction l as [| i l IH]; [reflexivity |].
  simpl. rewrite IH. f_equal. unfold Rdiv. ring.
Qed.

Lemma linspace_zero (n : nat) : linspace 0 0 n = repeat 0 n.
Proof.
  destruct n as [| [| n]]; [reflexivity | reflexivity |].
  unfold linspace. rewrite map_zero_steps, length_seq. reflexivity.
Qed.

(** C5, as the code has it.  A path of four or more waypoints whose total
    length is zero is not reported as a planning failure: plan construction
    never returns [None] on it.  It hands [splrep] time stamps that are all
    zero and returns a plan of duration zero unless [splrep] raises. *)
Theorem zero_length_path_is_not_rejected
    (s : Nav) (st g : TurtleBotState) (occ : StochOccupancyGrid2D) (res hor : R) :
  let run := AStar (-10, -10) (10, 10) (x st, y st) (x g, y g) occ res in
  solve run = true ->
  (4 <= length (astar_path run))%nat ->
  sum (map norm (diff (astar_path run))) = 0 ->
  let knots := repeat 0 (length (astar_path run)) in
  let out := compute_trajectory_plan st g occ res hor s in
  value out <> Ok None
  /\ value out =
       match splrep knots (map fst (astar_path run)),
             splrep knots (map snd (astar_path run)) with
       | Some x_spline, Some y_spline =>
           Ok (Some (mkPlan (astar_path run) x_spline y_spline 0))
       | _, _ => Raise SplineError
       end.
Proof.
  intros run Hsolve Hlen Hzero knots out.
  assert (Hval : value out =
       match splrep knots (map fst (astar_path run)),
             splrep knots (map snd (astar_path run)) with
       | Some x_spline, Some y_spline =>
           Ok (Some (mkPlan (astar_path run) x_spline y_spline 0))
       | _, _ => Raise SplineError
       end).
  { unfold out. rewrite (plan_accepted s st g occ res hor Hsolve Hlen).
    fold run. rewrite Hzero.
    replace (0 / V_max) with 0 by (unfold Rdiv; ring).
    rewrite linspace_zero. reflexivity. }
  split; [| exact Hval].
  rewrite Hval.
  destruct (splrep knots (map fst (astar_path run)));
    destruct (splrep knots (map snd (astar_path run))); discriminate.
Qed.

(** *** Replanning *)

(** C6, amended.  A goal request that arrives when a map is available and
    the robot is within [near_thresh] of the goal stores the goal, marks
    planning as succeeded and switches to PARK (logging the transition
    unless the node was in PARK already); the path search is not invoked and
    nothing else is emitted. *)
Theorem near_goal_parks_without_search
    (s : Nav) (g : TurtleBotState) (occ : StochOccupancyGrid2D) :
  occupancy s = Some occ ->
  distance_linear (state s) g < near_thresh ->
  replan g s =
    (Ok tt,
     mkNav PARK true (plan_start_time s) (plan s) (Some g) (occupancy s)
           (state s) (clock s) (V_prev s) (t_prev s) (om_prev s),
     if NavMode_eq_dec (mode s) PARK then []
     else [LogInfo (SwitchingMode (mode s) PARK)])
  /\ forall a b : point, ~ In (AStarSolve a b) (trace (replan g s)).
Proof.
  intros Hocc Hnear.
  assert (Heq : replan g s =
    (Ok tt,
     mkNav PARK true (plan_start_time s) (plan s) (Some g) (occupancy s)
           (state s) (clock s) (V_prev s) (t_prev s) (om_prev s),
     if NavMode_eq_dec (mode s) PARK then []
     else [LogInfo (SwitchingMode (mode s) PARK)])).
  { unfold replan. unfold bind at 1. unfold gets at 1. rewrite Hocc.
    unfold near_goal, bind, gets, modify, deref, ret. simpl.
    destruct (Rlt_dec (distance_linear (state s) g) near_thresh) as [_ | Hn];
      [| contradiction].
    destruct (NavMode_eq_dec (mode s) PARK) as [He | Hne].
    - rewrite switch_mode_same by exact He. rewrite <- He, <- Hocc. reflexivity.
    - rewrite switch_mode_other by exact Hne. rewrite <- Hocc. reflexivity. }
  split; [exact Heq |].
  intros a b. rewrite Heq. unfold trace. simpl.
  destruct (NavMode_eq_dec (mode s) PARK); simpl; [tauto |].
  intros [H | []]. discriminate.
Qed.

(** C7.  A replan in which the search is run (a map is there and the robot
    is not near the goal) and fails or leaves fewer than four waypoints:
    the handler stops the robot, runs the search, lowers the planned flag,
    warns, publishes [Bool(data=False)] on the success topic and returns;
    the mode is the one from before the replan. *)
Theorem failed_search_reports_failure
    (s : Nav) (g : TurtleBotState) (occ : StochOccupancyGrid2D) :
  occupancy s = Some occ ->
  ~ distance_linear (state s) g < near_thresh ->
  let run := AStar (-10, -10) (10, 10) (x (state s), y (state s)) (x g, y g)
                   occ plan_resolution in
  solve run = false \/ (length (astar_path run) < 4)%nat ->
  replan g s =
    (Ok tt,
     mkNav (mode s) false (plan_start_time s) (plan s) (Some g) (occupancy s)
           (state s) (clock s) (V_prev s) (t_prev s) (om_prev s),
     [Stop; AStarSolve (x (state s), y (state s)) (x g, y g);
      LogWarn ReplanningFailed; PubNavSuccess false]).
Proof.
  intros Hocc Hfar run Hfail.
  unfold replan. unfold bind at 1. unfold gets at 1. rewrite Hocc.
  unfold bind at 1. unfold modify at 1.
  unfold bind at 1. unfold near_goal at 1. unfold bind, gets, deref, ret at 1. simpl.
  destruct (Rlt_dec (distance_linear (state s) g) near_thresh) as [Hn | _];
    [contradiction |].
  unfold bind, emit, gets. simpl.
  rewrite (plan_rejected _ (state s) g occ plan_resolution plan_horizon Hfail).
  unfold modify. simpl. rewrite <- Hocc. reflexivity.
Qed.

(** C8.  A goal request that reaches the node before any map: the handler
    logs the warning and returns; the node, and with it the plan, the mode,
    the stored goal and the planned flag, is exactly as before, and the
    can-compute-control guard is false before and after. *)
Theorem goal_without_map_is_dropped (s : Nav) (g : TurtleBotState) :
  reachable s ->
  occupancy s = None ->
  replan g s = (Ok tt, s, [LogWarn UnableToReplan])
  /\ can_compute_control s = (Ok false, s, [])
  /\ value (can_compute_control (final (replan g s))) = Ok false.
Proof.
  intros Hreach Hnone.
  pose proof (reachable_map_before_plan s Hreach Hnone) as Hp.
  rewrite (replan_without_map g s Hnone).
  unfold can_compute_control, gets, value, final. simpl. rewrite Hp. auto.
Qed.

End Machine.

(** ** The statements on the test bench *)

Lemma euclid_here : euclid (mkState 0 0 0) (mkState 0 0 0) = 0.
Proof.
  unfold euclid, norm. simpl.
  replace ((0 - 0) * (0 - 0) + (0 - 0) * (0 - 0)) with 0 by ring.
  apply sqrt_0.
Qed.

Lemma euclid_3_4 : euclid (mkState 0 0 0) (mkState 3 4 0) = 5.
Proof.
  unfold euclid, norm. simpl.
  replace ((0 - 3) * (0 - 3) + (0 - 4) * (0 - 4)) with (5 * 5) by ring.
  apply sqrt_square. lra.
Qed.

Lemma sqrt2_gt_1 : 1 < sqrt 2.
Proof. rewrite <- sqrt_1 at 1. apply sqrt_lt_1; lra. Qed.

Lemma staircase_lengths :
  map norm (diff [(0, 0); (1, 0); (2, 1); (3, 1)]) = [1; sqrt 2; 1].
Proof.
  simpl. unfold norm. simpl.
  replace ((1 - 0) * (1 - 0) + (0 - 0) * (0 - 0)) with 1 by ring.
  replace ((2 - 1) * (2 - 1) + (1 - 0) * (1 - 0)) with 2 by ring.
  replace ((3 - 2) * (3 - 2) + (1 - 1) * (1 - 1)) with 1 by ring.
  rewrite sqrt_1. reflexivity.
Qed.

Lemma stuck_length : sum (map norm (diff [(0, 0); (0, 0); (0, 0); (0, 0)])) = 0.
Proof.
  simpl. unfold norm. simpl.
  replace ((0 - 0) * (0 - 0) + (0 - 0) * (0 - 0)) with 0 by ring.
  rewrite sqrt_0. ring.
Qed.

(** C3, on the code.  On the path (0,0), (1,0), (2,1), (3,1) with
    [V_max = 1] plan construction returns a plan of duration 2 + √2, the
    total length over the speed; but the time stamps it fits the splines to
    are the four evenly spaced ones 0, (2+√2)/3, 2(2+√2)/3, 2+√2, while the
    arc length walked up to each waypoint over the speed is 0, 1, 1+√2,
    2+√2: the second waypoint is stamped (2+√2)/3, not 1. *)
Theorem uneven_steps_get_equal_times :
  exists p : @TrajectoryPlan (bench staircase),
    value (@compute_trajectory_plan (bench staircase)
             (mkState 0 0 0) (mkState 3 1 0) tt 1 10 power_on) = Ok (Some p)
    /\ path p = [(0, 0); (1, 0); (2, 1); (3, 1)]
    /\ duration p = 2 + sqrt 2
    /\ fst (path_x_spline p)
       = [0; (2 + sqrt 2) / 3; 2 * (2 + sqrt 2) / 3; 2 + sqrt 2]
    /\ fst (path_y_spline p) = fst (path_x_spline p)
    /\ arc_length_times (@V_max (bench staircase)) (path p)
       = [0; 1; 1 + sqrt 2; 2 + sqrt 2]
    /\ nth 1 (fst (path_x_spline p)) 0
       <> nth 1 (arc_length_times (@V_max (bench staircase)) (path p)) 0.
Proof.
  pose proof sqrt2_gt_1 as Hs.
  set (T := 2 + sqrt 2).
  set (ts := [0; T / 3; 2 * T / 3; T]).
  exists (@mkPlan (bench staircase) [(0, 0); (1, 0); (2, 1); (3, 1)]
            (ts, [0; 1; 2; 3]) (ts, [0; 0; 1; 1]) T).
  assert (Hts : linspace 0 (sum [1; sqrt 2; 1] / 1) 4 = ts).
  { unfold linspace, ts, T, sum. simpl.
    repeat (apply f_equal2; [field |]). reflexivity. }
  split.
  { unfold compute_trajectory_plan. cbn [AStar bench staircase solve astar_path].
    unfold bind at 1. unfold emit at 1. cbn [negb orb length Nat.ltb Nat.leb].
    rewrite staircase_lengths. cbn [V_max bench length].
    rewrite Hts.
    assert (Hinc : strictly_increasing ts = true).
    { unfold ts, strictly_increasing, T.
      repeat (match goal with
              | |- context [Rlt_dec ?a ?b] => destruct (Rlt_dec a b); [| lra]
              end).
      reflexivity. }
    unfold bind, modify, ret, value. cbn [splrep bench]. rewrite Hinc.
    cbn [map fst snd].
    unfold T. simpl. f_equal. f_equal. f_equal. unfold sum. simpl. field. }
  split; [reflexivity |].
  split; [reflexivity |].
  split; [reflexivity |].
  split; [reflexivity |].
  assert (Harc : arc_length_times (@V_max (bench staircase))
                   [(0, 0); (1, 0); (2, 1); (3, 1)] = [0; 1; 1 + sqrt 2; 2 + sqrt 2]).
  { unfold arc_length_times. rewrite staircase_lengths. cbn [V_max bench cumulative map].
    repeat (apply f_equal2; [field |]). reflexivity. }
  split; [exact Harc |].
  cbn [path]. rewrite Harc. cbn [path_x_spline fst nth]. unfold ts, T. simpl. lra.
Qed.

(** C2 on the bench: from 179° to −179° the robot is told to turn
    counter-clockwise. *)
Lemma heading_control_wrapped_error_witness :
  0 < @kp (bench no_path)
  /\ 0 < omega (@compute_heading_control (bench no_path)
                  (mkState 0 0 (179 * PI / 180)) (mkState 0 0 (- 179 * PI / 180))).
Proof.
  assert (Hkp : 0 < @kp (bench no_path)) by (simpl; lra).
  split; [exact Hkp |].
  pose proof PI_RGT_0 as Hpi.
  destruct (@heading_control_wrapped_error (bench no_path)
              (mkState 0 0 (179 * PI / 180)) (mkState 0 0 (- 179 * PI / 180)))
    as (_ & _ & _ & _ & Hsign & _).
  destruct (Hsign (2 * PI / 180) 1%Z) as [_ Hpos].
  - simpl. field.
  - lra.
  - apply (Hpos Hkp). lra.
Defined.

(** C10 on the bench: a stored speed of zero is clamped to 1/10. *)
Lemma tracking_divisor_at_least_threshold_witness :
  0 < @V_PREV_THRES (bench no_path)
  /\ @V_PREV_THRES (bench no_path)
     <= Rmax (@V_prev (bench no_path) power_on) (@V_PREV_THRES (bench no_path))
  /\ Rmax (@V_prev (bench no_path) power_on) (@V_PREV_THRES (bench no_path)) <> 0.
Proof.
  assert (Hpos : 0 < @V_PREV_THRES (bench no_path)) by (simpl; lra).
  split; [exact Hpos |].
  destruct (@tracking_divisor_at_least_threshold (bench no_path) power_on
              (mkState 0 0 0)
              (@mkPlan (bench no_path) [] ([], []) ([], []) 0) 0 Hpos)
    as (Hge & Hnz & _).
  split; assumption.
Defined.

(** C4 on the bench: three waypoints are no plan. *)
Lemma short_path_is_failure_witness :
  lt (length (astar_path (three_points (0, 0) (3, 4)))) 4
  /\ value (@compute_trajectory_plan (bench three_points)
              (mkState 0 0 0) (mkState 3 4 0) tt 1 10 power_on) = Ok None.
Proof.
  assert (Hlen : lt (length (astar_path (three_points (0, 0) (3, 4)))) 4)
    by (simpl; lia).
  split; [exact Hlen |].
  exact (proj1 (@short_path_is_failure (bench three_points) power_on
                  (mkState 0 0 0) (mkState 3 4 0) tt 1 10 (or_intror Hlen))).
Defined.

(** C5 on the bench: four waypoints on one spot are not turned into a
    planning failure; here [splrep] raises on the repeated time stamps. *)
Lemma zero_length_path_is_not_rejected_witness :
  solve (stuck (0, 0) (0, 0)) = true
  /\ le 4 (length (astar_path (stuck (0, 0) (0, 0))))
  /\ sum (map norm (diff (astar_path (stuck (0, 0) (0, 0))))) = 0
  /\ value (@compute_trajectory_plan (bench stuck)
              (mkState 0 0 0) (mkState 0 0 0) tt 1 10 power_on) <> Ok None
  /\ value (@compute_trajectory_plan (bench stuck)
              (mkState 0 0 0) (mkState 0 0 0) tt 1 10 power_on) = Raise SplineError.
Proof.
  assert (Hlen : le 4 (length (astar_path (stuck (0, 0) (0, 0)))))
    by (simpl; lia).
  split; [reflexivity |].
  split; [exact Hlen |].
  split; [exact stuck_length |].
  destruct (@zero_length_path_is_not_rejected (bench stuck) power_on
              (mkState 0 0 0) (mkState 0 0 0) tt 1 10 eq_refl Hlen stuck_length)
    as [Hnot Hval].
  split; [exact Hnot |].
  rewrite Hval. cbn [AStar splrep bench stuck astar_path length repeat].
  assert (Hrej : strictly_increasing [0; 0; 0; 0] = false).
  { unfold strictly_increasing. destruct (Rlt_dec 0 0) as [H | _]; [lra | reflexivity]. }
  rewrite Hrej. reflexivity.
Defined.

(** C6 as stated fails when no map has been received: the robot stands on
    the requested goal, yet the handler only warns and the node stays in
    IDLE with the planned flag down. *)
Lemma near_goal_without_map_stays_idle :
  let s := @power_on (bench no_path) in
  let g := mkState 0 0 0 in
  @distance_linear (bench no_path) (state s) g < @near_thresh (bench no_path)
  /\ mode (final (replan g s)) = IDLE
  /\ mode (final (replan g s)) <> PARK
  /\ is_planned (final (replan g s)) = false
  /\ trace (replan g s) = [LogWarn UnableToReplan].
Proof.
  intros s g.
  split.
  { change (euclid (mkState 0 0 0) (mkState 0 0 0) < 1 / 10).
    rewrite euclid_here. lra. }
  rewrite (@replan_without_map (bench no_path) g s eq_refl).
  unfold final, trace. simpl.
  repeat split. discriminate.
Qed.

(** C6, amended, on the bench: with a map, the same request parks. *)
Lemma near_goal_parks_without_search_witness :
  occupancy (mapped no_path) = Some tt
  /\ @distance_linear (bench no_path) (state (mapped no_path)) (mkState 0 0 0)
     < @near_thresh (bench no_path)
  /\ replan (mkState 0 0 0) (mapped no_path) =
       (Ok tt,
        @mkNav (bench no_path) PARK true 0%Z None (Some (mkState 0 0 0)) (Some tt)
               (mkState 0 0 0) 0%Z 0 0 0,
        [LogInfo (SwitchingMode IDLE PARK)]).
Proof.
  assert (Hnear : @distance_linear (bench no_path) (state (mapped no_path)) (mkState 0 0 0)
     < @near_thresh (bench no_path)).
  { change (euclid (mkState 0 0 0) (mkState 0 0 0) < 1 / 10).
    rewrite euclid_here. lra. }
  split; [reflexivity |].
  split; [exact Hnear |].
  exact (proj1 (@near_goal_parks_without_search (bench no_path) (mapped no_path)
                  (mkState 0 0 0) tt eq_refl Hnear)).
Defined.

(** C7 on the bench: the search returns exactly three waypoints. *)
Lemma failed_search_reports_failure_witness :
  occupancy (mapped three_points) = Some tt
  /\ ~ @distance_linear (bench three_points) (state (mapped three_points)) (mkState 3 4 0)
       < @near_thresh (bench three_points)
  /\ lt (length (astar_path (three_points (0, 0) (3, 4)))) 4
  /\ replan (mkState 3 4 0) (mapped three_points) =
       (Ok tt,
        @mkNav (bench three_points) IDLE false 0%Z None (Some (mkState 3 4 0))
               (Some tt) (mkState 0 0 0) 0%Z 0 0 0,
        [Stop; AStarSolve (0, 0) (3, 4); LogWarn ReplanningFailed;
         PubNavSuccess false]).
Proof.
  assert (Hfar : ~ @distance_linear (bench three_points)
                     (state (mapped three_points)) (mkState 3 4 0)
                   < @near_thresh (bench three_points)).
  { change (~ euclid (mkState 0 0 0) (mkState 3 4 0) < 1 / 10).
    rewrite euclid_3_4. lra. }
  assert (Hlen : lt (length (astar_path (three_points (0, 0) (3, 4)))) 4)
    by (simpl; lia).
  split; [reflexivity |].
  split; [exact Hfar |].
  split; [exact Hlen |].
  exact (@failed_search_reports_failure (bench three_points) (mapped three_points)
           (mkState 3 4 0) tt eq_refl Hfar (or_intror Hlen)).
Defined.

(** C8 on the bench: a goal request right after start-up. *)
Lemma goal_without_map_is_dropped_witness :
  reachable (@power_on (bench no_path))
  /\ occupancy (@power_on (bench no_path)) = None
  /\ replan (mkState 3 4 0) (@power_on (bench no_path)) =
       (Ok tt, power_on, [LogWarn UnableToReplan])
  /\ value (can_compute_control (final (replan (mkState 3 4 0) (@power_on (bench no_path)))))
     = Ok false.
Proof.
  assert (Hreach : reachable (@power_on (bench no_path))).
  { apply reachable_init. repeat split. }
  split; [exact Hreach |].
  split; [reflexivity |].
  destruct (@goal_without_map_is_dropped (bench no_path) power_on (mkState 3 4 0)
              Hreach eq_refl) as (Hrun & _ & Hguard).
  split; assumption.
Defined.

(** C9 on the bench: leaving IDLE for PARK is logged once. *)
Lemma switch_mode_idempotent_witness :
  PARK <> mode (@power_on (bench no_path))
  /\ switch_mode PARK (@power_on (bench no_path)) =
       (Ok tt,
        @mkNav (bench no_path) PARK false 0%Z None None None (mkState 0 0 0) 0%Z 0 0 0,
        [LogInfo (SwitchingMode IDLE PARK)]).
Proof.
  assert (Hne : PARK <> mode (@power_on (bench no_path))) by (simpl; discriminate).
  split; [exact Hne |].
  exact (proj1 (proj2 (@switch_mode_idempotent (bench no_path) power_on PARK)) Hne).
Defined.

(** ** More on the handlers *)

Section Runs.

Context {C : Collaborators}.

(** Case analysis along a method body. *)
Ltac exec :=
  repeat (simpl in *;
          match goal with
          | |- context [match ?x with _ => _ end] =>
              lazymatch x with
              | context [match _ with _ => _ end] => fail
              | _ => destruct x eqn:?
              end
          end).

Ltac unfold_replan :=
  unfold replan, near_goal, aligned, switch_mode, compute_trajectory_plan,
    publish_planned_path, publish_smooth_path,
    bind, gets, modify, deref, emit, ret, raise, value, final, trace in *.

Ltac unfold_tick :=
  unfold compute_control, map_callback, near_goal, aligned, close_to_plan, switch_mode,
    bind, gets, modify, deref, emit, ret, raise, value, final, trace in *.

Lemma tracking_runs (st : TurtleBotState) (p : TrajectoryPlan) (t : R) (s : Nav) :
  exists V om : R,
    compute_trajectory_tracking_control st p t s =
      (Ok (mkControl V om), set_om_prev om (set_V_prev V (set_t_prev t s)), []).
Proof. destruct st as [px py th]. eexists. eexists. reflexivity. Qed.

Ltac use_tracking :=
  repeat match goal with
         | H : compute_trajectory_tracking_control ?st ?p ?t ?s = _ |- _ =>
             let V := fresh "V" in
             let om := fresh "om" in
             let E := fresh "E" in
             destruct (tracking_runs st p t s) as (V & om & E);
             rewrite E in H; clear E; inversion H; clear H; subst
         end.

Ltac use_replan lem :=
  repeat match goal with
         | H : replan ?g ?s = (_, _, _) |- _ =>
             let Hr := fresh "Hr" in
             pose proof (lem g s) as Hr; rewrite H in Hr; clear H
         end.

Ltac rewrite_modes :=
  repeat match goal with E : mode _ = _ |- _ => rewrite E in * end.

Ltac feed_support :=
  repeat match goal with
         | Hr : mode_supported ?s -> _ |- _ =>
             let HP := fresh "HP" in
             assert (HP : mode_supported s)
               by (unfold mode_supported in *; simpl in *; rewrite_modes;
                   repeat match goal with
                          | |- context [match mode ?s0 with _ => _ end] =>
                              destruct (mode s0) eqn:?; rewrite_modes
                          end;
                   intuition congruence);
             specialize (Hr HP); clear HP
         end.

(** *** What the handlers need is there *)

Lemma replan_supported (g : TurtleBotState) (s : Nav) :
  mode_supported s ->
  value (replan g s) <> Raise AttributeError
  /\ mode_supported (final (replan g s)).
Proof.
  unfold mode_supported. unfold_replan.
  intros H. exec; subst; simpl in *; (split; [discriminate || congruence | intuition congruence]).
Qed.

Lemma map_callback_supported (msg : OccupancyGrid) (s : Nav) :
  mode_supported s -> mode_supported (final (map_callback msg s)).
Proof.
  unfold mode_supported. unfold_tick.
  intros H. exec; use_replan replan_supported; feed_support;
    unfold mode_supported, final in *; simpl in *; rewrite_modes;
    try (intuition congruence).
Qed.

Lemma compute_control_supported (s : Nav) :
  mode_supported s ->
  value (compute_control s) <> Raise AttributeError
  /\ mode_supported (final (compute_control s)).
Proof.
  unfold mode_supported. unfold_tick.
  intros H. exec; use_tracking; use_replan replan_supported; feed_support;
    unfold mode_supported, final, value in *; simpl in *; rewrite_modes;
    try (split; [try discriminate; intuition congruence | intuition congruence]).
Qed.


Lemma reachable_supported (s : Nav) : reachable s -> mode_supported s.
Proof.
  induction 1 as [s Hinit | s i Hreach IH].
  - unfold mode_supported. destruct Hinit as [Hm _]. rewrite Hm. exact I.
  - destruct i as [g | msg | | p | t]; simpl.
    + apply replan_supported. exact IH.
    + apply map_callback_supported. exact IH.
    + apply compute_control_supported. exact IH.
    + exact IH.
    + exact IH.
Qed.

Lemma some_of_not_none {A} (o : option A) : o <> None -> exists a, o = Some a.
Proof. destruct o as [a |]; [eauto | congruence]. Qed.

(** X1.  In every state the node can reach, ALIGN and TRACK have a plan,
    every mode but IDLE has a goal and a map, and the planned flag is up
    only when a map is there. *)
Theorem modes_have_what_they_serve (s : Nav) :
  reachable s ->
  (mode s = ALIGN \/ mode s = TRACK -> exists p, plan s = Some p)
  /\ (mode s <> IDLE ->
      (exists g, goal s = Some g) /\ (exists occ, occupancy s = Some occ))
  /\ (is_planned s = true -> exists occ, occupancy s = Some occ).
Proof.
  intros Hreach.
  pose proof (reachable_supported s Hreach) as Hs.
  pose proof (reachable_map_before_plan s Hreach) as Hm.
  unfold mode_supported, map_before_plan in *.
  split; [| split].
  - intros [E | E]; rewrite E in Hs; apply some_of_not_none; tauto.
  - intros Hne. destruct (mode s); try congruence;
      (split; apply some_of_not_none; tauto).
  - intros Hp. apply some_of_not_none. intros Hnone.
    rewrite (Hm Hnone) in Hp. discriminate.
Qed.

(** X2.  In every state the node can reach, neither a control tick nor a
    goal request reads an attribute of a missing plan, goal or map: they
    never end in [AttributeError]. *)
Theorem tick_never_reads_none (s : Nav) (g : TurtleBotState) :
  reachable s ->
  value (compute_control s) <> Raise AttributeError
  /\ value (replan g s) <> Raise AttributeError.
Proof.
  intros Hreach. pose proof (reachable_supported s Hreach) as Hs.
  split.
  - apply compute_control_supported. exact Hs.
  - apply replan_supported. exact Hs.
Qed.

(** *** Stop before search *)

Lemma replan_stops_first (g : TurtleBotState) (s : Nav) :
  stop_guarded (trace (replan g s)) = true
  /\ (searches (trace (replan g s)) <= 1)%nat.
Proof.
  unfold stop_guarded. unfold_replan.
  exec; split; simpl; (reflexivity || lia).
Qed.

(** X3.  Whatever the node's state, each of the three handlers runs the
    path search at most once, and every search comes right after the robot
    has been told to stop. *)
Theorem handlers_stop_before_search (s : Nav) (g : TurtleBotState) (msg : OccupancyGrid) :
  (stop_guarded (trace (replan g s)) = true
   /\ (searches (trace (replan g s)) <= 1)%nat)
  /\ (stop_guarded (trace (map_callback msg s)) = true
      /\ (searches (trace (map_callback msg s)) <= 1)%nat)
  /\ (stop_guarded (trace (compute_control s)) = true
      /\ (searches (trace (compute_control s)) <= 1)%nat).
Proof.
  split; [apply replan_stops_first |].
  split.
  - unfold stop_guarded. unfold_tick.
    exec; use_replan replan_stops_first;
      unfold stop_guarded, trace in *; simpl in *;
      rewrite ?app_nil_r; simpl; try assumption; (split; (reflexivity || lia)).
  - unfold stop_guarded. unfold_tick.
    exec; use_tracking; use_replan replan_stops_first;
      unfold stop_guarded, trace in *; simpl in *;
      rewrite ?app_nil_r; simpl; try assumption; (split; (reflexivity || lia)).
Qed.

(** *** Nothing is forgotten *)

Lemma replan_never_forgets (g : TurtleBotState) (s : Nav) :
  never_forgets s (final (replan g s)).
Proof.
  unfold never_forgets. unfold_replan.
  exec; subst; simpl in *; intuition congruence.
Qed.

(** X4.  No goal request, map update, tick, pose or clock update ever sets
    the map, the goal or the plan back to [None]. *)
Theorem handlers_never_forget (i : Input) (s : Nav) :
  never_forgets s (handle i s).
Proof.
  destruct i as [g | msg | | p | t]; simpl.
  - apply replan_never_forgets.
  - unfold never_forgets. unfold_tick.
    exec; use_replan replan_never_forgets;
      unfold never_forgets, final in *; simpl in *; intuition congruence.
  - unfold never_forgets. unfold_tick.
    exec; use_tracking; use_replan replan_never_forgets;
      unfold never_forgets, final in *; simpl in *; intuition congruence.
  - unfold never_forgets. simpl. tauto.
  - unfold never_forgets. simpl. tauto.
Qed.

Ltac tidy :=
  repeat match goal with
         | H1 : ?l = Some ?a, H2 : ?l = Some ?b |- _ =>
             rewrite H1 in H2; inversion H2; clear H2; subst
         | H : Some _ = Some _ |- _ => inversion H; clear H; subst
         | H1 : ?l = true, H2 : ?l = false |- _ => rewrite H1 in H2; discriminate
         | H1 : negb ?l = true, H2 : ?l = true |- _ => rewrite H2 in H1; discriminate
         | H1 : negb ?l = false, H2 : ?l = false |- _ => rewrite H2 in H1; discriminate
         end;
  try contradiction; try congruence;
  unfold set_mode, set_is_planned, set_plan_start_time, set_plan, set_goal,
    set_occupancy, set_state, set_clock, set_V_prev, set_t_prev, set_om_prev in *;
  simpl in *; try congruence.



Lemma replan_shortcut (s : Nav) (g : TurtleBotState) (occ : StochOccupancyGrid2D) :
  occupancy s = Some occ ->
  distance_linear (state s) g < near_thresh ->
  final (replan g s) =
    mkNav PARK true (plan_start_time s) (plan s) (Some g) (occupancy s)
          (state s) (clock s) (V_prev s) (t_prev s) (om_prev s).
Proof.
  intros Hocc Hnear.
  unfold replan. unfold bind at 1. unfold gets at 1. rewrite Hocc.
  unfold near_goal, bind, gets, modify, deref, ret, final. simpl.
  destruct (Rlt_dec (distance_linear (state s) g) near_thresh) as [_ | Hn];
    [| contradiction].
  destruct (NavMode_eq_dec (mode s) PARK) as [He | Hne].
  - rewrite switch_mode_same by exact He. simpl. rewrite <- He, <- Hocc. reflexivity.
  - rewrite switch_mode_other by exact Hne. simpl. rewrite <- Hocc. reflexivity.
Qed.

(** X5.  After a goal request has taken the near-goal shortcut on a node
    that has no plan yet, the planned flag is up without a plan, and the
    next map update stores the new map and then fails with
    [AttributeError] on [self.plan.path]. *)
Theorem map_update_after_shortcut_raises
    (s : Nav) (g : TurtleBotState) (occ : StochOccupancyGrid2D) (msg : OccupancyGrid) :
  occupancy s = Some occ ->
  plan s = None ->
  distance_linear (state s) g < near_thresh ->
  map_callback msg (final (replan g s)) =
    (Raise AttributeError,
     mkNav PARK true (plan_start_time s) None (Some g) (Some (make_grid msg))
           (state s) (clock s) (V_prev s) (t_prev s) (om_prev s),
     []).
Proof.
  intros Hocc Hplan Hnear.
  rewrite (replan_shortcut s g occ Hocc Hnear).
  unfold_tick. simpl. rewrite Hplan. reflexivity.
Qed.

(** X6.  A map update on a node that is not planned, or whose plan has all
    waypoints after the first free in the new map, replaces the map and does
    nothing else; the first waypoint is not looked at. *)
Theorem map_update_with_free_path (s : Nav) (msg : OccupancyGrid) :
  (is_planned s = false
   \/ exists p, plan s = Some p
                /\ forallb (is_free (make_grid msg)) (tl (path p)) = true) ->
  map_callback msg s =
    (Ok tt,
     mkNav (mode s) (is_planned s) (plan_start_time s) (plan s) (goal s)
           (Some (make_grid msg)) (state s) (clock s) (V_prev s) (t_prev s) (om_prev s),
     []).
Proof.
  intros H. unfold map_callback, bind, modify, gets, deref, ret.
  destruct H as [H | (p & Hp & Hfree)]; exec; tidy.
Qed.

(** X7.  A map update that finds a waypoint after the first not free, on a
    planned node, is a replan towards the stored goal on the node with the
    new map and the planned flag lowered. *)
Theorem map_update_with_blocked_path
    (s : Nav) (msg : OccupancyGrid) (p : TrajectoryPlan) (g : TurtleBotState) :
  is_planned s = true ->
  plan s = Some p ->
  goal s = Some g ->
  forallb (is_free (make_grid msg)) (tl (path p)) = false ->
  map_callback msg s =
    replan g (set_is_planned false (set_occupancy (Some (make_grid msg)) s)).
Proof.
  intros Hp Hplan Hgoal Hblocked.
  unfold map_callback, bind, modify, gets, deref, ret.
  exec; tidy.
Qed.



(** X9.  When [splrep] raises on an accepted path, the exception leaves
    [replan]: the goal has been replaced, the robot stopped and the
    tracking speed and time reset, but the planned flag, the old plan and
    the mode are as before and no failure is published. *)
Theorem replan_lets_spline_error_escape
    (s : Nav) (g : TurtleBotState) (occ : StochOccupancyGrid2D) :
  occupancy s = Some occ ->
  ~ distance_linear (state s) g < near_thresh ->
  let run := AStar (-10, -10) (10, 10) (x (state s), y (state s)) (x g, y g)
                   occ plan_resolution in
  solve run = true ->
  (4 <= length (astar_path run))%nat ->
  let total_time := sum (map norm (diff (astar_path run))) / V_max in
  let times := linspace 0 total_time (length (astar_path run)) in
  splrep times (map fst (astar_path run)) = None
  \/ splrep times (map snd (astar_path run)) = None ->
  replan g s =
    (Raise SplineError,
     mkNav (mode s) (is_planned s) (plan_start_time s) (plan s) (Some g)
           (occupancy s) (state s) (clock s) 0 0 (om_prev s),
     [Stop; AStarSolve (x (state s), y (state s)) (x g, y g)]).
Proof.
  intros Hocc Hfar run Hsolve Hlen total_time times Hnone.
  pose proof (plan_accepted (set_goal (Some g) s) (state s) g occ plan_resolution
                plan_horizon Hsolve Hlen) as Hplan.
  cbv zeta in Hplan. fold run in Hplan. fold total_time in Hplan. fold times in Hplan.
  assert (Hraise :
    match splrep times (map fst (astar_path run)),
          splrep times (map snd (astar_path run)) with
    | Some x_spline, Some y_spline =>
        Ok (Some (mkPlan (astar_path run) x_spline y_spline total_time))
    | _, _ => Raise SplineError
    end = Raise SplineError).
  { destruct Hnone as [Hx | Hy].
    - rewrite Hx. reflexivity.
    - rewrite Hy. destruct (splrep times (map fst (astar_path run))); reflexivity. }
  rewrite Hraise in Hplan.
  unfold replan. unfold bind at 1. unfold gets at 1. rewrite Hocc.
  unfold bind at 1. unfold modify at 1.
  unfold bind at 1. unfold near_goal at 1. unfold bind, gets, deref, ret at 1. simpl.
  destruct (Rlt_dec (distance_linear (state s) g) near_thresh) as [Hn | _];
    [contradiction |].
  unfold bind, emit, gets. simpl. rewrite Hplan. simpl.
  rewrite <- Hocc. reflexivity.
Qed.


Lemma replan_when_search_fails
    (s : Nav) (g : TurtleBotState) (occ : StochOccupancyGrid2D) :
  occupancy s = Some occ ->
  ~ distance_linear (state s) g < near_thresh ->
  let run := AStar (-10, -10) (10, 10) (x (state s), y (state s)) (x g, y g)
                   occ plan_resolution in
  solve run = false \/ (length (astar_path run) < 4)%nat ->
  replan g s =
    (Ok tt,
     mkNav (mode s) false (plan_start_time s) (plan s) (Some g) (occupancy s)
           (state s) (clock s) (V_prev s) (t_prev s) (om_prev s),
     [Stop; AStarSolve (x (state s), y (state s)) (x g, y g);
      LogWarn ReplanningFailed; PubNavSuccess false]).
Proof.
  intros Hocc Hfar run Hfail.
  unfold replan. unfold bind at 1. unfold gets at 1. rewrite Hocc.
  unfold bind at 1. unfold modify at 1.
  unfold bind at 1. unfold near_goal at 1. unfold bind, gets, deref, ret at 1. simpl.
  destruct (Rlt_dec (distance_linear (state s) g) near_thresh) as [Hn | _];
    [contradiction |].
  unfold bind, emit, gets. simpl.
  rewrite (plan_rejected _ (state s) g occ plan_resolution plan_horizon Hfail).
  unfold modify. simpl. rewrite <- Hocc. reflexivity.
Qed.

(** X10.  A tick in TRACK within [near_thresh] of the goal switches to
    PARK, publishes success, and already returns the heading command
    towards the goal heading. *)
Theorem tick_near_goal_parks (s : Nav) (g : TurtleBotState) :
  mode s = TRACK ->
  goal s = Some g ->
  distance_linear (state s) g < near_thresh ->
  compute_control s =
    (Ok (compute_heading_control (state s) g),
     mkNav PARK (is_planned s) (plan_start_time s) (plan s) (goal s) (occupancy s)
           (state s) (clock s) (V_prev s) (t_prev s) (om_prev s),
     [LogInfo (SwitchingMode TRACK PARK); PubNavSuccess true]).
Proof.
  intros Hm Hg Hnear. unfold_tick. rewrite Hm, Hg. simpl.
  destruct (Rlt_dec (distance_linear (state s) g) near_thresh) as [_ | Hn];
    [| contradiction].
  simpl. rewrite Hm. simpl. rewrite Hg. simpl. rewrite <- Hg. reflexivity.
Qed.

(** X11.  A tick in PARK: once the heading is within [theta_start_thresh]
    of the goal heading the planned flag is lowered, the node goes to IDLE
    and the zero command is returned; until then the node is unchanged and
    the heading command towards the goal heading is returned. *)
Theorem tick_in_park (s : Nav) (g : TurtleBotState) :
  mode s = PARK ->
  goal s = Some g ->
  (distance_angular (state s) g < theta_start_thresh ->
   compute_control s =
     (Ok TurtleBotControl_default,
      mkNav IDLE false (plan_start_time s) (plan s) (goal s) (occupancy s)
            (state s) (clock s) (V_prev s) (t_prev s) (om_prev s),
      [LogInfo (SwitchingMode PARK IDLE)]))
  /\ (~ distance_angular (state s) g < theta_start_thresh ->
      compute_control s = (Ok (compute_heading_control (state s) g), s, [])).
Proof.
  intros Hm Hg. split; intros Hal; unfold_tick; rewrite Hm, Hg; simpl;
    destruct (Rlt_dec (distance_angular (state s) g) theta_start_thresh);
    try contradiction; simpl; rewrite ?Hm; simpl; rewrite ?Hg; simpl.
  - rewrite <- Hg. reflexivity.
  - reflexivity.
Qed.


(** X13.  A tick in TRACK, away from the goal, that replans because the
    plan has run out of time or the robot is off the plan, and whose search
    fails: the node stays in TRACK with the planned flag down and the old
    plan, failure is published, and the tick still returns the tracking
    command along the old plan. *)
Theorem tick_replans_in_vain
    (s : Nav) (g : TurtleBotState) (p : TrajectoryPlan) (occ : StochOccupancyGrid2D) :
  mode s = TRACK ->
  goal s = Some g ->
  plan s = Some p ->
  occupancy s = Some occ ->
  ~ distance_linear (state s) g < near_thresh ->
  let t := seconds (clock s - plan_start_time s)%Z in
  let late := (clock s - plan_start_time s >? Duration (duration p))%Z in
  late = true \/ ~ distance_linear (state s) (desired_state p t) < plan_thresh ->
  let run := AStar (-10, -10) (10, 10) (x (state s), y (state s)) (x g, y g)
                   occ plan_resolution in
  solve run = false \/ (length (astar_path run) < 4)%nat ->
  let stale :=
    mkNav TRACK false (plan_start_time s) (plan s) (goal s) (occupancy s)
          (state s) (clock s) (V_prev s) (t_prev s) (om_prev s) in
  compute_control s =
    (value (compute_trajectory_tracking_control (state s) p t stale),
     final (compute_trajectory_tracking_control (state s) p t stale),
     [LogInfo (if late then OutOfTimeOrStuck else FarFromPlan);
      Stop; AStarSolve (x (state s), y (state s)) (x g, y g);
      LogWarn ReplanningFailed; PubNavSuccess false]).
Proof.
  intros Hm Hg Hp Hocc Hfar t late Hwhy run Hfail stale.
  assert (Hre : replan g (set_is_planned false s) =
    (Ok tt, stale,
     [Stop; AStarSolve (x (state s), y (state s)) (x g, y g);
      LogWarn ReplanningFailed; PubNavSuccess false])).
  { rewrite (replan_when_search_fails (set_is_planned false s) g occ Hocc Hfar Hfail).
    simpl. unfold stale. rewrite Hm, Hg. reflexivity. }
  unfold compute_control, near_goal, close_to_plan, bind, gets, modify, deref, emit, ret.
  rewrite Hm, Hg. simpl.
  destruct (Rlt_dec (distance_linear (state s) g) near_thresh) as [Hn | _];
    [contradiction |].
  simpl. rewrite Hp. simpl. fold late.
  destruct late eqn:El.
  - simpl. rewrite Hg. simpl. rewrite Hre. simpl.
    unfold stale at 1. simpl. unfold stale at 1. simpl. rewrite Hp. simpl.
    fold stale. fold t.
    destruct (tracking_runs (state s) p t stale) as (V & om & E).
    rewrite E. unfold stale in *. rewrite Hp in *. rewrite E. reflexivity.
  - destruct Hwhy as [Hl | Hdrift]; [discriminate |].
    simpl. rewrite Hp. simpl. fold t.
    destruct (Rlt_dec (distance_linear (state s) (desired_state p t)) plan_thresh);
      [contradiction |].
    simpl. rewrite Hg. simpl. rewrite Hre. simpl.
    unfold stale at 1. simpl. unfold stale at 1. simpl. rewrite Hp. simpl.
    fold stale. fold t.
    destruct (tracking_runs (state s) p t stale) as (V & om & E).
    rewrite E. unfold stale in *. rewrite Hp in *. rewrite E. reflexivity.
Qed.

End Runs.

(** ** More on the planner and the controllers *)

Lemma linspace_length (a b : R) (n : nat) : length (linspace a b n) = n.
Proof.
  destruct n as [| [| n]]; [reflexivity | reflexivity |].
  unfold linspace. rewrite length_map, length_seq. reflexivity.
Qed.

Lemma nth_map_seq (f : nat -> R) (n i : nat) :
  (i < n)%nat -> nth i (map f (seq 0 n)) 0 = f i.
Proof.
  intros Hi.
  rewrite (nth_indep _ 0 (f O)) by (rewrite length_map, length_seq; exact Hi).
  rewrite map_nth, seq_nth by exact Hi. reflexivity.
Qed.


Lemma linspace_nth (a b : R) (n i : nat) :
  (i < S (S n))%nat ->
  nth i (linspace a b (S (S n))) 0 = a + INR i * ((b - a) / INR (S n)).
Proof.
  intros Hi. unfold linspace.
  apply (nth_map_seq (fun k => a + INR k * ((b - a) / INR (S n)))). exact Hi.
Qed.

Lemma norm_nonneg (d : point) : 0 <= norm d.
Proof. unfold norm. apply sqrt_pos. Qed.

Lemma norm_zero (d : point) : norm d = 0 <-> d = (0, 0).
Proof.
  destruct d as [dx dy]. unfold norm. simpl. split.
  - intros H. apply sqrt_eq_0 in H; [| nra].
    assert (dx = 0) by nra. assert (dy = 0) by nra. subst. reflexivity.
  - intros H. inversion H. subst.
    replace (0 * 0 + 0 * 0) with 0 by ring. apply sqrt_0.
Qed.

Lemma sum_norms_nonneg (ds : list point) : 0 <= sum (map norm ds).
Proof.
  induction ds as [| d ds IH]; simpl; [lra |].
  pose proof (norm_nonneg d). unfold sum in *. simpl. lra.
Qed.

Lemma sum_norms_zero (ds : list point) :
  sum (map norm ds) = 0 <-> forall d, In d ds -> d = (0, 0).
Proof.
  induction ds as [| d ds IH]; simpl.
  - split; [intros _ d [] | reflexivity].
  - pose proof (norm_nonneg d) as Hd. pose proof (sum_norms_nonneg ds) as Hs.
    unfold sum in *. simpl. split.
    + intros H q [Hq | Hq].
      * subst q. apply norm_zero. lra.
      * apply IH; [lra | exact Hq].
    + intros H.
      assert (H1 : norm d = 0) by (apply norm_zero; apply H; left; reflexivity).
      assert (H2 : fold_right Rplus 0 (map norm ds) = 0)
        by (apply IH; intros q Hq; apply H; right; exact Hq).
      lra.
Qed.

Lemma diff_zero (q0 : point) (l : list point) :
  (forall d, In d (diff (q0 :: l)) -> d = (0, 0)) <->
  (forall q, In q (q0 :: l) -> q = q0).
Proof.
  revert q0. induction l as [| q1 l IH]; intros q0.
  - simpl. split; [intros _ q [H | []]; congruence | intros _ d []].
  - change (diff (q0 :: q1 :: l))
      with ((fst q1 - fst q0, snd q1 - snd q0) :: diff (q1 :: l)).
    split.
    + intros H.
      assert (H1 : q1 = q0).
      { specialize (H _ (or_introl eq_refl)). inversion H.
        destruct q0, q1; simpl in *. f_equal; lra. }
      subst q1. intros q [Hq | Hq]; [congruence |].
      apply (proj1 (IH q0)); [| exact Hq].
      intros d Hd. apply H. right. exact Hd.
    + intros H d [Hd | Hd].
      * assert (q1 = q0) by (apply H; right; left; reflexivity). subst q1 d.
        f_equal; ring.
      * assert (q1 = q0) by (apply H; right; left; reflexivity). subst q1.
        apply (proj2 (IH q0)); [| exact Hd].
        intros q Hq. apply H. right. exact Hq.
Qed.

Section Planner.

Context {C : Collaborators}.

(** X14.  For an accepted path of positive length and a positive [V_max],
    the time stamps the splines are fitted to are one per waypoint, start at
    0, end at the plan's duration, are evenly spaced and strictly
    increasing. *)
Theorem plan_time_stamps
    (s : Nav) (st g : TurtleBotState) (occ : StochOccupancyGrid2D) (res hor : R) :
  let run := AStar (-10, -10) (10, 10) (x st, y st) (x g, y g) occ res in
  solve run = true ->
  (4 <= length (astar_path run))%nat ->
  0 < V_max ->
  0 < sum (map norm (diff (astar_path run))) ->
  let n := length (astar_path run) in
  let total_time := sum (map norm (diff (astar_path run))) / V_max in
  let times := linspace 0 total_time n in
  value (compute_trajectory_plan st g occ res hor s) =
    match splrep times (map fst (astar_path run)),
          splrep times (map snd (astar_path run)) with
    | Some x_spline, Some y_spline =>
        Ok (Some (mkPlan (astar_path run) x_spline y_spline total_time))
    | _, _ => Raise SplineError
    end
  /\ length times = n
  /\ nth 0 times 0 = 0
  /\ nth (n - 1) times 0 = total_time
  /\ (forall i, (S i < n)%nat ->
        nth (S i) times 0 - nth i times 0 = total_time / INR (n - 1))
  /\ (forall i j, (i < j < n)%nat -> nth i times 0 < nth j times 0).
Proof.
  intros run Hsolve Hlen HV Hpos n total_time times.
  split.
  { rewrite (plan_accepted s st g occ res hor Hsolve Hlen). reflexivity. }
  assert (HT : 0 < total_time) by (apply Rdiv_lt_0_compat; assumption).
  destruct n as [| [| m]] eqn:En; [unfold n in En; lia | unfold n in En; lia |].
  assert (Hm : 0 < INR (S m)) by (apply lt_0_INR; lia).
  assert (Hstep : 0 < (total_time - 0) / INR (S m))
    by (apply Rdiv_lt_0_compat; lra).
  split; [apply linspace_length |].
  split.
  { unfold times. rewrite linspace_nth by lia. simpl. ring. }
  split.
  { unfold times. rewrite linspace_nth by lia.
    replace (S (S m) - 1)%nat with (S m) by lia. field. lra. }
  split.
  { intros i Hi. unfold times. rewrite !linspace_nth by lia.
    replace (S (S m) - 1)%nat with (S m) by lia.
    rewrite S_INR. field. lra. }
  intros i j [Hij Hj]. unfold times. rewrite !linspace_nth by lia.
  apply lt_INR in Hij. nra.
Qed.

(** X15.  A plan that is returned keeps the path of the search, of four or
    more waypoints; with a positive [V_max] its duration, the path length
    over [V_max], is never negative, and it is zero exactly when all
    waypoints are one and the same point. *)
Theorem plan_duration_sign
    (s : Nav) (st g : TurtleBotState) (occ : StochOccupancyGrid2D) (res hor : R)
    (p : TrajectoryPlan) :
  value (compute_trajectory_plan st g occ res hor s) = Ok (Some p) ->
  0 < V_max ->
  path p = astar_path (AStar (-10, -10) (10, 10) (x st, y st) (x g, y g) occ res)
  /\ (4 <= length (path p))%nat
  /\ duration p = sum (map norm (diff (path p))) / V_max
  /\ 0 <= duration p
  /\ (duration p = 0 <-> forall q, In q (path p) -> q = hd (0, 0) (path p)).
Proof.
  intros Hval HV.
  set (run := AStar (-10, -10) (10, 10) (x st, y st) (x g, y g) occ res) in *.
  destruct (solve run) eqn:Hsolve.
  2:{ rewrite (plan_rejected s st g occ res hor (or_introl Hsolve)) in Hval.
      discriminate. }
  destruct (le_lt_dec 4 (length (astar_path run))) as [Hlen | Hshort].
  2:{ rewrite (plan_rejected s st g occ res hor (or_intror Hshort)) in Hval.
      discriminate. }
  rewrite (plan_accepted s st g occ res hor Hsolve Hlen) in Hval.
  fold run in Hval. unfold value in Hval. simpl in Hval.
  destruct (splrep _ (map fst (astar_path run))) as [sx |]; [| discriminate].
  destruct (splrep _ (map snd (astar_path run))) as [sy |]; [| discriminate].
  inversion Hval as [Hp]. clear Hval. simpl.
  split; [reflexivity |]. split; [exact Hlen |]. split; [reflexivity |].
  pose proof (sum_norms_nonneg (diff (astar_path run))) as Hnn.
  split.
  { apply Rmult_le_pos; [exact Hnn | left; apply Rinv_0_lt_compat; exact HV]. }
  destruct (astar_path run) as [| q0 l] eqn:Epath; [simpl in Hlen; lia |].
  simpl hd. rewrite <- diff_zero, <- sum_norms_zero.
  split.
  - intros H. apply Rmult_integral in H. destruct H as [H | H]; [exact H |].
    pose proof (Rinv_0_lt_compat _ HV). lra.
  - intros H. rewrite H. unfold Rdiv. ring.
Qed.


(** X17.  With a positive [V_PREV_THRES], the command of the tracking
    controller realises the virtual inputs: with [a] the acceleration that
    the commanded speed integrates and [speed] the clamped stored speed,
    [a cos th - speed * omega * sin th = u1] and
    [a sin th + speed * omega * cos th = u2]. *)
Theorem decoupling_inverts_unicycle
    (s : Nav) (st : TurtleBotState) (p : TrajectoryPlan) (t : R) :
  0 < V_PREV_THRES ->
  let th := theta st in
  let u1 := splev t (path_x_spline p) 2
            + kpx * (splev t (path_x_spline p) 0 - x st)
            + kdx * (splev t (path_x_spline p) 1 - V_prev s * cos th) in
  let u2 := splev t (path_y_spline p) 2
            + kpy * (splev t (path_y_spline p) 0 - y st)
            + kdy * (splev t (path_y_spline p) 1 - V_prev s * sin th) in
  let speed := Rmax (V_prev s) V_PREV_THRES in
  exists (c : TurtleBotControl) (a : R),
    value (compute_trajectory_tracking_control st p t s) = Ok c
    /\ v c = speed + a * (t - t_prev s)
    /\ a * cos th - speed * omega c * sin th = u1
    /\ a * sin th + speed * omega c * cos th = u2.
Proof.
  intros Hpos th u1 u2 speed.
  assert (Hnz : speed <> 0) by (pose proof (Rmax_r (V_prev s) V_PREV_THRES); unfold speed; lra).
  destruct st as [px py th0]. simpl in *.
  eexists. exists (cos th * u1 + sin th * u2).
  split; [reflexivity |]. simpl. fold th u1 u2 speed.
  split; [reflexivity |].
  pose proof (sin2_cos2 th) as Hsc. unfold Rsqr in Hsc.
  split.
  - replace (speed * ((- sin th * u1 + cos th * u2) / speed))
      with (- sin th * u1 + cos th * u2) by (field; exact Hnz).
    transitivity (u1 * (sin th * sin th + cos th * cos th)); [ring |].
    rewrite Hsc. ring.
  - replace (speed * ((- sin th * u1 + cos th * u2) / speed))
      with (- sin th * u1 + cos th * u2) by (field; exact Hnz).
    transitivity (u2 * (sin th * sin th + cos th * cos th)); [ring |].
    rewrite Hsc. ring.
Qed.

(** X18.  The heading controller never commands a linear speed, its angular
    rate is at most [|kp| * pi] in magnitude, and the command depends on the
    headings only up to whole turns. *)
Theorem heading_command_bounded_and_periodic (cur tgt : TurtleBotState) (j k : Z) :
  v (compute_heading_control cur tgt) = 0
  /\ Rabs (omega (compute_heading_control cur tgt)) <= Rabs kp * PI
  /\ compute_heading_control
       (mkState (x cur) (y cur) (theta cur + 2 * PI * IZR j))
       (mkState (x tgt) (y tgt) (theta tgt + 2 * PI * IZR k))
     = compute_heading_control cur tgt.
Proof.
  split; [reflexivity |].
  split.
  - unfold compute_heading_control. simpl. rewrite Rabs_mult.
    apply Rmult_le_compat_l; [apply Rabs_pos |].
    destruct (wrap_angle_range (theta tgt - theta cur)) as [Hlo Hhi].
    apply Rabs_le. lra.
  - unfold compute_heading_control. simpl. f_equal. f_equal.
    destruct (wrap_angle_congr (theta tgt - theta cur)) as [m Hm].
    apply (wrap_angle_unique _ _ (m - k + j)%Z).
    + apply wrap_angle_range.
    + rewrite Hm. rewrite plus_IZR, minus_IZR. ring.
Qed.

End Planner.

(** ** The further statements on the test bench *)

Lemma mapped_reachable (search : point -> point -> AStarRun) :
  reachable (mapped search).
Proof.
  change (mapped search)
    with (@handle (bench search) (@MapUpdate (bench search) tt) power_on).
  apply reachable_step. apply reachable_init. repeat split.
Qed.

Lemma here_is_near (search : point -> point -> AStarRun) :
  @distance_linear (bench search) (mkState 0 0 0) (mkState 0 0 0)
  < @near_thresh (bench search).
Proof.
  change (euclid (mkState 0 0 0) (mkState 0 0 0) < 1 / 10).
  rewrite euclid_here. lra.
Qed.

Lemma parked_early_is (s : @Nav (bench no_path)) :
  s = parked_early ->
  s = @mkNav (bench no_path) PARK true 0%Z None (Some (mkState 0 0 0)) (Some tt)
             (mkState 0 0 0) 0%Z 0 0 0.
Proof.
  intros ->. unfold parked_early, handle.
  rewrite (@replan_shortcut (bench no_path) (mapped no_path) (mkState 0 0 0) tt
             eq_refl (here_is_near no_path)).
  reflexivity.
Qed.

Lemma parked_early_reachable : reachable parked_early.
Proof. apply reachable_step. apply mapped_reachable. Qed.

Lemma euclid_back_3_4 : euclid (mkState 3 4 0) (mkState 0 0 0) = 5.
Proof.
  unfold euclid, norm. simpl.
  replace ((3 - 0) * (3 - 0) + (4 - 0) * (4 - 0)) with (5 * 5) by ring.
  apply sqrt_square. lra.
Qed.


Lemma wrapped_nothing : Rabs (wrap_angle (0 - 0)) = 0.
Proof.
  replace (0 - 0) with 0 by ring. rewrite wrap_angle_0. apply Rabs_R0.
Qed.


Lemma staircase_times :
  linspace 0 (sum (map norm (diff [(0, 0); (1, 0); (2, 1); (3, 1)])) / 1) 4
  = [0; (2 + sqrt 2) / 3; 2 * (2 + sqrt 2) / 3; 2 + sqrt 2].
Proof.
  rewrite staircase_lengths. unfold linspace, sum. simpl.
  repeat (apply f_equal2; [field |]). reflexivity.
Qed.

Lemma staircase_times_increase :
  strictly_increasing
    (linspace 0 (sum (map norm (diff [(0, 0); (1, 0); (2, 1); (3, 1)])) / 1) 4)
  = true.
Proof.
  rewrite staircase_times. pose proof sqrt2_gt_1 as Hs.
  unfold strictly_increasing.
  repeat (match goal with
          | |- context [Rlt_dec ?a ?b] => destruct (Rlt_dec a b); [| lra]
          end).
  reflexivity.
Qed.

Lemma stuck_times_rejected :
  strictly_increasing
    (linspace 0 (sum (map norm (diff [(0, 0); (0, 0); (0, 0); (0, 0)])) / 1) 4)
  = false.
Proof.
  rewrite stuck_length. replace (0 / 1) with 0 by field.
  rewrite linspace_zero. simpl.
  destruct (Rlt_dec 0 0) as [H | _]; [lra | reflexivity].
Qed.

(** X1 on the bench: the node that parked at once has its goal. *)
Lemma modes_have_what_they_serve_witness :
  reachable parked_early
  /\ mode parked_early <> IDLE
  /\ exists g, goal parked_early = Some g.
Proof.
  assert (Hm : mode parked_early <> IDLE).
  { rewrite (parked_early_is parked_early eq_refl). simpl. discriminate. }
  split; [exact parked_early_reachable |].
  split; [exact Hm |].
  destruct (@modes_have_what_they_serve (bench no_path) parked_early
              parked_early_reachable) as (_ & Hgoal & _).
  exact (proj1 (Hgoal Hm)).
Defined.

(** X2 on the bench: a tick on the node that parked at once. *)
Lemma tick_never_reads_none_witness :
  reachable parked_early
  /\ value (compute_control parked_early) <> Raise AttributeError.
Proof.
  split; [exact parked_early_reachable |].
  exact (proj1 (@tick_never_reads_none (bench no_path) parked_early (mkState 0 0 0)
                  parked_early_reachable)).
Defined.

(** X5 on the bench: map, goal on the spot, map again. *)
Lemma map_update_after_shortcut_raises_witness :
  occupancy (mapped no_path) = Some tt
  /\ plan (mapped no_path) = None
  /\ @distance_linear (bench no_path) (state (mapped no_path)) (mkState 0 0 0)
     < @near_thresh (bench no_path)
  /\ value (@map_callback (bench no_path) tt parked_early) = Raise AttributeError.
Proof.
  split; [reflexivity |]. split; [reflexivity |].
  split; [exact (here_is_near no_path) |].
  unfold parked_early, handle.
  rewrite (@map_update_after_shortcut_raises (bench no_path) (mapped no_path)
             (mkState 0 0 0) tt tt eq_refl eq_refl (here_is_near no_path)).
  reflexivity.
Defined.

(** X6 on the bench: a map in which the whole plan is free. *)
Lemma map_update_with_free_path_witness :
  (exists p, plan (underway no_path TRACK (mkState 0 0 0) (mkState 3 4 0)) = Some p
             /\ forallb (@is_free (bench no_path) (@make_grid (bench no_path) tt)) (tl (path p)) = true)
  /\ @map_callback (bench no_path) tt (underway no_path TRACK (mkState 0 0 0) (mkState 3 4 0))
     = (Ok tt, underway no_path TRACK (mkState 0 0 0) (mkState 3 4 0), []).
Proof.
  assert (H : exists p,
             plan (underway no_path TRACK (mkState 0 0 0) (mkState 3 4 0)) = Some p
             /\ forallb (@is_free (bench no_path) (@make_grid (bench no_path) tt)) (tl (path p)) = true).
  { exists (bench_plan no_path). split; reflexivity. }
  split; [exact H |].
  exact (@map_update_with_free_path (bench no_path)
           (underway no_path TRACK (mkState 0 0 0) (mkState 3 4 0)) tt (or_intror H)).
Defined.

(** X7 behind the walls: the map update is a replan. *)
Lemma map_update_with_blocked_path_witness :
  is_planned (walled_in no_path) = true
  /\ goal (walled_in no_path) = Some (mkState 3 4 0)
  /\ @map_callback (walled no_path) tt (walled_in no_path)
     = replan (mkState 3 4 0)
         (@set_is_planned (walled no_path) false
            (@set_occupancy (walled no_path) (Some tt) (walled_in no_path))).
Proof.
  split; [reflexivity |]. split; [reflexivity |].
  exact (@map_update_with_blocked_path (walled no_path) (walled_in no_path) tt
           (@mkPlan (walled no_path) [(0, 0); (1, 0); (2, 1); (3, 1)]
                    ([0; 1; 2; 3], [0; 1; 2; 3]) ([0; 1; 2; 3], [0; 0; 1; 1]) 3)
           (mkState 3 4 0) eq_refl eq_refl eq_refl eq_refl).
Defined.


(** X9 on the bench: [splrep] rejects the time stamps of the stuck path. *)
Lemma replan_lets_spline_error_escape_witness :
  occupancy (mapped stuck) = Some tt
  /\ ~ @distance_linear (bench stuck) (state (mapped stuck)) (mkState 3 4 0)
       < @near_thresh (bench stuck)
  /\ value (replan (mkState 3 4 0) (mapped stuck)) = Raise SplineError
  /\ is_planned (final (replan (mkState 3 4 0) (mapped stuck))) = false
  /\ goal (final (replan (mkState 3 4 0) (mapped stuck))) = Some (mkState 3 4 0).
Proof.
  assert (Hfar : ~ @distance_linear (bench stuck) (state (mapped stuck))
                     (mkState 3 4 0) < @near_thresh (bench stuck)).
  { change (~ euclid (mkState 0 0 0) (mkState 3 4 0) < 1 / 10).
    rewrite euclid_3_4. lra. }
  assert (Hlen : le 4 (length (astar_path (stuck (0, 0) (3, 4)))))
    by (simpl; lia).
  assert (Hx : @splrep (bench stuck)
                 (linspace 0 (sum (map norm (diff [(0, 0); (0, 0); (0, 0); (0, 0)])) / 1) 4)
                 [0; 0; 0; 0] = None).
  { cbn [splrep bench]. rewrite stuck_times_rejected. reflexivity. }
  split; [reflexivity |]. split; [exact Hfar |].
  rewrite (@replan_lets_spline_error_escape (bench stuck) (mapped stuck)
             (mkState 3 4 0) tt eq_refl Hfar eq_refl Hlen (or_introl Hx)).
  repeat split.
Defined.

(** X10 on the bench: tracking, and on the goal. *)
Lemma tick_near_goal_parks_witness :
  mode (underway no_path TRACK (mkState 0 0 0) (mkState 0 0 0)) = TRACK
  /\ @distance_linear (bench no_path) (mkState 0 0 0) (mkState 0 0 0)
     < @near_thresh (bench no_path)
  /\ mode (final (compute_control
                    (underway no_path TRACK (mkState 0 0 0) (mkState 0 0 0)))) = PARK.
Proof.
  split; [reflexivity |]. split; [exact (here_is_near no_path) |].
  rewrite (@tick_near_goal_parks (bench no_path)
             (underway no_path TRACK (mkState 0 0 0) (mkState 0 0 0)) (mkState 0 0 0)
             eq_refl eq_refl (here_is_near no_path)).
  reflexivity.
Defined.

(** X11 on the bench: parked with the goal heading. *)
Lemma tick_in_park_witness :
  mode (underway no_path PARK (mkState 0 0 0) (mkState 0 0 0)) = PARK
  /\ @distance_angular (bench no_path) (mkState 0 0 0) (mkState 0 0 0)
     < @theta_start_thresh (bench no_path)
  /\ mode (final (compute_control
                    (underway no_path PARK (mkState 0 0 0) (mkState 0 0 0)))) = IDLE
  /\ is_planned (final (compute_control
                    (underway no_path PARK (mkState 0 0 0) (mkState 0 0 0)))) = false.
Proof.
  assert (Hal : @distance_angular (bench no_path) (mkState 0 0 0) (mkState 0 0 0)
                < @theta_start_thresh (bench no_path)).
  { change (Rabs (wrap_angle (0 - 0)) < 5 / 100). rewrite wrapped_nothing. lra. }
  split; [reflexivity |]. split; [exact Hal |].
  rewrite (proj1 (@tick_in_park (bench no_path)
                    (underway no_path PARK (mkState 0 0 0) (mkState 0 0 0))
                    (mkState 0 0 0) eq_refl eq_refl) Hal).
  split; reflexivity.
Defined.


(** X13 on the bench: off the plan, and no path to be found. *)
Lemma tick_replans_in_vain_witness :
  ~ @distance_linear (bench no_path) (mkState 3 4 0) (mkState 0 0 0)
      < @near_thresh (bench no_path)
  /\ ~ @distance_linear (bench no_path) (mkState 3 4 0)
        (desired_state (bench_plan no_path) (seconds (0 - 0)%Z))
      < @plan_thresh (bench no_path)
  /\ In (PubNavSuccess false)
       (trace (compute_control (underway no_path TRACK (mkState 3 4 0) (mkState 0 0 0)))).
Proof.
  assert (Hfar : ~ @distance_linear (bench no_path) (mkState 3 4 0) (mkState 0 0 0)
                     < @near_thresh (bench no_path)).
  { change (~ euclid (mkState 3 4 0) (mkState 0 0 0) < 1 / 10).
    rewrite euclid_back_3_4. lra. }
  assert (Hoff : ~ @distance_linear (bench no_path) (mkState 3 4 0)
                     (desired_state (bench_plan no_path) (seconds (0 - 0)%Z))
                   < @plan_thresh (bench no_path)).
  { change (~ euclid (mkState 3 4 0) (mkState 0 0 0) < 3 / 10).
    rewrite euclid_back_3_4. lra. }
  split; [exact Hfar |]. split; [exact Hoff |].
  rewrite (@tick_replans_in_vain (bench no_path)
             (underway no_path TRACK (mkState 3 4 0) (mkState 0 0 0))
             (mkState 0 0 0) (bench_plan no_path) tt
             eq_refl eq_refl eq_refl eq_refl Hfar (or_intror Hoff)
             (or_introl eq_refl)).
  unfold trace. simpl. tauto.
Defined.


(** X14 on the bench: the time stamps of the staircase. *)
Lemma plan_time_stamps_witness :
  solve (staircase (0, 0) (3, 1)) = true
  /\ 0 < @V_max (bench staircase)
  /\ 0 < sum (map norm (diff (astar_path (staircase (0, 0) (3, 1)))))
  /\ nth 3 (linspace 0 (sum (map norm (diff (astar_path (staircase (0, 0) (3, 1)))))
                       / @V_max (bench staircase)) 4) 0
     = sum (map norm (diff (astar_path (staircase (0, 0) (3, 1)))))
       / @V_max (bench staircase).
Proof.
  assert (HV : 0 < @V_max (bench staircase)) by (simpl; lra).
  assert (Hpos : 0 < sum (map norm (diff (astar_path (staircase (0, 0) (3, 1)))))).
  { cbn [staircase astar_path]. rewrite staircase_lengths.
    pose proof sqrt2_gt_1. unfold sum. simpl. lra. }
  assert (Hlen : le 4 (length (astar_path (staircase (0, 0) (3, 1)))))
    by (simpl; lia).
  split; [reflexivity |]. split; [exact HV |]. split; [exact Hpos |].
  destruct (@plan_time_stamps (bench staircase) power_on (mkState 0 0 0)
              (mkState 3 1 0) tt 1 10 eq_refl Hlen HV Hpos)
    as (_ & _ & _ & Hlast & _).
  exact Hlast.
Defined.

(** X15 on the bench: the staircase plan lasts a positive time. *)
Lemma plan_duration_sign_witness :
  0 < @V_max (bench staircase)
  /\ exists p : @TrajectoryPlan (bench staircase),
       value (@compute_trajectory_plan (bench staircase)
                (mkState 0 0 0) (mkState 3 1 0) tt 1 10 power_on) = Ok (Some p)
       /\ 0 <= duration p
       /\ (4 <= length (path p))%nat.
Proof.
  assert (HV : 0 < @V_max (bench staircase)) by (simpl; lra).
  assert (Hlen : le 4 (length (astar_path (staircase (0, 0) (3, 1)))))
    by (simpl; lia).
  split; [exact HV |].
  pose proof (@plan_accepted (bench staircase) power_on (mkState 0 0 0)
                (mkState 3 1 0) tt 1 10 eq_refl Hlen) as Hrun.
  cbv zeta in Hrun. cbn [AStar bench staircase astar_path length splrep V_max] in Hrun.
  rewrite staircase_times_increase in Hrun. cbn [map fst snd] in Hrun.
  match type of Hrun with
  | _ = (Ok (Some ?p), _, _) => exists p
  end.
  assert (Hval : value (@compute_trajectory_plan (bench staircase)
                (mkState 0 0 0) (mkState 3 1 0) tt 1 10 power_on) = Ok (Some
     (@mkPlan (bench staircase) [(0, 0); (1, 0); (2, 1); (3, 1)]
        (linspace 0 (sum (map norm (diff [(0, 0); (1, 0); (2, 1); (3, 1)])) / 1) 4,
         [0; 1; 2; 3])
        (linspace 0 (sum (map norm (diff [(0, 0); (1, 0); (2, 1); (3, 1)])) / 1) 4,
         [0; 0; 1; 1])
        (sum (map norm (diff [(0, 0); (1, 0); (2, 1); (3, 1)])) / 1)))).
  { rewrite Hrun. reflexivity. }
  split; [exact Hval |].
  destruct (@plan_duration_sign (bench staircase) power_on (mkState 0 0 0)
              (mkState 3 1 0) tt 1 10 _ Hval HV) as (_ & Hfour & _ & Hnn & _).
  split; assumption.
Defined.


(** X17 on the bench: from rest. *)
Lemma decoupling_inverts_unicycle_witness :
  0 < @V_PREV_THRES (bench no_path)
  /\ exists (c : TurtleBotControl) (a : R),
       value (@compute_trajectory_tracking_control (bench no_path)
                (mkState 0 0 0) (bench_plan no_path) 0 power_on) = Ok c
       /\ v c = 1 / 10 + a * (0 - 0).
Proof.
  assert (Hpos : 0 < @V_PREV_THRES (bench no_path)) by (simpl; lra).
  split; [exact Hpos |].
  destruct (@decoupling_inverts_unicycle (bench no_path) power_on (mkState 0 0 0)
              (bench_plan no_path) 0 Hpos) as (c & a & Hc & Hv & _).
  exists c, a. split; [exact Hc |].
  rewrite Hv. simpl.
  replace (Rmax 0 (1 / 10)) with (1 / 10); [reflexivity |].
  symmetry. apply Rmax_right. lra.
Defined.
